(** * skbel.bnn.models: model factories and the PBNN estimator wrapper

    A shallow embedding of [src/skbel/bnn/models.py].  The Python code is
    glue over Keras / TensorFlow Probability: it assembles layer objects,
    hands them to [Sequential], compiles the result, and (in [PBNN])
    forwards estimator calls to the compiled model.

    The embedding keeps that shape.  Python objects live in a store and
    are passed around by reference; every function of the module is a
    computation over the store that either returns a value or raises.
    What the framework computes (building a model from its layers,
    training, inference, sampling) is left abstract behind an interface,
    and any of it may raise. *)

From stdpp Require Import base option list strings pretty gmap fin_maps.
From Stdlib Require Import ZArith Lia.

Local Open Scope Z_scope.

(** ** Python prelude: exceptions, subscripting, range, repetition *)

Inductive exn : Type :=
| ValueError (msg : string)
| TypeError (msg : string)
| IndexError (msg : string)
| OverflowError (msg : string)
| MemoryError
| AttributeError (msg : string)
| ReferenceError
| FrameworkError (msg : string).

Inductive result (A : Type) : Type :=
| Ok (a : A)
| Raise (e : exn).
Arguments Ok {A} a.
Arguments Raise {A} e.

(** The [n_hidden] argument is annotated [int or list]. *)
Inductive int_or_list : Type :=
| PyInt (h : Z)
| PyList (l : list Z).

(** [len(l)] *)
Definition len {A} (l : list A) : Z := Z.of_nat (length l).

(** [range(n)]: empty when [n <= 0]. *)
Definition range (n : Z) : list Z := Z.of_nat <$> seq 0 (Z.to_nat n).

(** [sys.maxsize], the largest list index, on a 64-bit build. *)
Definition maxsize : Z := 2 ^ 63 - 1.

(** [[x] * n].  The count must fit an index, or the interpreter raises
    [OverflowError]; a list longer than the machine can allocate
    ([capacity] entries, never more than [maxsize // 8]) is refused with
    [MemoryError]; a count [n <= 0] gives the empty list. *)
Definition list_mul {A} (capacity : Z) (x : A) (n : Z) : result (list A) :=
  if (n <? - maxsize - 1) || (maxsize <? n)
  then Raise (OverflowError "cannot fit 'int' into an index-sized integer")
  else if capacity <? n then Raise MemoryError
  else Ok (replicate (Z.to_nat n) x).

(** [l[i]] on a list: negative indices count from the end, anything
    outside [-len(l) .. len(l) - 1] raises [IndexError]. *)
Definition list_getitem {A} (l : list A) (i : Z) : result A :=
  let j := if i <? 0 then len l + i else i in
  if j <? 0 then Raise (IndexError "list index out of range")
  else match l !! Z.to_nat j with
       | Some x => Ok x
       | None => Raise (IndexError "list index out of range")
       end.

(** [v[i]] on the [n_hidden] argument: an [int] has no [__getitem__]. *)
Definition getitem (v : int_or_list) (i : Z) : result Z :=
  match v with
  | PyList l => list_getitem l i
  | PyInt _ => Raise (TypeError "'int' object is not subscriptable")
  end.

(** The f-string [f"dense{i + 1}"]. *)
Definition dense_name (i : Z) : string := "dense" +:+ pretty (i + 1).

(** ** The framework's side *)

(** Types and constants the module takes from TensorFlow, TensorFlow
    Probability and [skbel.nn_utilities], and the one limit of the
    machine the module can run into. *)
Class Backend : Type := {
  float : Type;            (* Python floats: [kl_weight] *)
  tensor : Type;           (* arrays and tensors *)
  distribution : Type;     (* what calling a probabilistic model yields *)
  loss_fn : Type;          (* anything accepted as [loss=] by [compile] *)
  variables : Type;        (* the trainable state owned by a model *)
  history : Type;          (* what [Model.fit] returns *)
  tf_state : Type;         (* global framework state: random generators *)
  neg_log_likelihood : loss_fn;     (* skbel.nn_utilities *)
  MeanSquaredError : loss_fn;       (* tf.keras.losses.MeanSquaredError() *)
  params_size : Z -> Z;    (* MultivariateNormalTriL.params_size *)
  list_capacity : Z;       (* the longest list the interpreter can allocate *)
}.

(** Callables of [skbel.nn_utilities] that are passed on as arguments. *)
Inductive prior_fn : Type := prior_trainable.
Inductive posterior_fn : Type := posterior_mean_field.

(** [prior_regularize(event_shape)] *)
Inductive prior : Type := prior_regularize (event_shape : list Z).

Inductive optimizer : Type := Adam.

Section Models.
Context `{B : Backend}.

(** [tfp.layers.KLDivergenceRegularizer(prior, weight=...)] *)
Inductive regularizer : Type :=
| KLDivergenceRegularizer (distribution_b : prior) (weight : float).

(** Layer objects, identified with the arguments they were built from. *)
Inductive Layer : Type :=
| InputLayer (input_shape : list Z) (name : string)
| DenseVariational (units : Z) (make_prior_fn : prior_fn)
    (make_posterior_fn : posterior_fn) (kl_weight : float)
    (activation : string) (name : string)
| Dense (units : Z) (activation : string) (name : string)
| MultivariateNormalTriL (event_size : Z)
    (activity_regularizer : regularizer) (name : string).

(** A Keras model object: its layers and name, the compile settings once
    [compile] has run, and the variables that training updates. *)
Record KModel : Type := mkKModel {
  layers : list Layer;
  model_name : string;
  compiled : option (optimizer * loss_fn);
  vars : variables;
}.

Definition loc : Type := positive.

(** Attributes of a [PBNN] instance.  [model] is unset until [__init__]
    has built the network. *)
Record PBNN_obj : Type := mkPBNN {
  input_shape : Z;
  output_shape : Z;
  n_hidden : int_or_list;
  kl_weight : float;
  n_layers : Z;
  epochs : Z;
  batch_size : Z;
  verbose : Z;
  model : option loc;
}.

(** The store: estimator objects, model objects, framework state. *)
Record world : Type := mkWorld {
  estimators : gmap loc PBNN_obj;
  kmodels : gmap loc KModel;
  tf : tf_state;
}.

(** Computations over the store.  A raised exception keeps whatever
    changes were made before it. *)
Definition M (A : Type) : Type := world -> result A * world.

Definition ret {A} (a : A) : M A := fun w => (Ok a, w).

Definition raise {A} (e : exn) : M A := fun w => (Raise e, w).

Definition bind {A C} (m : M A) (k : A -> M C) : M C :=
  fun w =>
    match m w with
    | (Ok a, w') => k a w'
    | (Raise e, w') => (Raise e, w')
    end.

Definition lift {A} (r : result A) : M A := fun w => (r, w).

End Models.

Declare Scope py_scope.
Delimit Scope py_scope with py.
Notation "'let*' x ':=' m 'in' k" := (bind m (fun x => k))
  (at level 10, x name, m at level 100, k at level 200) : py_scope.
Notation "m ';;;' k" := (bind m (fun _ => k))
  (at level 100, k at level 200, right associativity) : py_scope.

(** What the framework does with a model: building it from its layers,
    training, inference, sampling.  Each operation may raise, may draw
    from the framework state, and the ones run on a model may leave it
    with new variables.  [initial_variables] is the construction: the
    framework builds every layer it is given, checks the shapes and
    creates the variables, and raises when it cannot (a negative width,
    a size that fits no tensor). *)
Class BackendOps (B : Backend) : Type := {
  initial_variables : list Layer -> tf_state -> result variables * tf_state;
  model_fit : KModel -> tensor -> option tensor -> Z -> Z -> Z ->
              tf_state -> result history * variables * tf_state;
  model_call : KModel -> tensor ->
               tf_state -> result distribution * variables * tf_state;
  model_evaluate : KModel -> tensor -> option tensor -> Z ->
                   tf_state -> result tensor * variables * tf_state;
  dist_sample : distribution -> Z -> tf_state -> result tensor * tf_state;
  dist_stddev : distribution -> tf_state -> result tensor * tf_state;
}.

Section Module_models.
Context `{B : Backend} `{O : !BackendOps B}.
Local Open Scope py_scope.

(** *** Store primitives *)

(** A list comprehension whose element expression may raise. *)
Fixpoint comprehension {A C} (f : A -> M C) (xs : list A) : M (list C) :=
  match xs with
  | [] => ret []
  | x :: xs' =>
      let* y := f x in
      let* ys := comprehension f xs' in
      ret (y :: ys)
  end.

(** The call [tfk.Sequential([...], name=name)], argument list
    included: the layer objects written in the list are created and the
    framework builds the model from all the layers (the first one is an
    [InputLayer], so this happens here).  When it succeeds there is a new
    model object, not yet compiled; when it raises, the exception comes
    out as it is and no object exists. *)
Definition Sequential (ls : list Layer) (name : string) : M loc :=
  fun w =>
    match initial_variables ls (tf w) with
    | (Ok v, t) =>
        let m := fresh (dom (kmodels w)) in
        (Ok m,
         mkWorld (estimators w)
                 (<[m := mkKModel ls name None v]> (kmodels w))
                 t)
    | (Raise e, t) => (Raise e, mkWorld (estimators w) (kmodels w) t)
    end.

(** [model.compile(optimizer=optimizer, loss=loss)] *)
Definition compile (m : loc) (opt : optimizer) (loss : loss_fn) : M unit :=
  fun w =>
    match kmodels w !! m with
    | Some km =>
        (Ok tt,
         mkWorld (estimators w)
                 (<[m := mkKModel (layers km) (model_name km)
                                  (Some (opt, loss)) (vars km)]> (kmodels w))
                 (tf w))
    | None => (Raise ReferenceError, w)
    end.

(** Running a framework operation on the model object at [m]. *)
Definition on_model {A} (m : loc)
    (op : KModel -> tf_state -> result A * variables * tf_state) : M A :=
  fun w =>
    match kmodels w !! m with
    | Some km =>
        let '(r, v, t) := op km (tf w) in
        (r,
         mkWorld (estimators w)
                 (<[m := mkKModel (layers km) (model_name km)
                                  (compiled km) v]> (kmodels w))
                 t)
    | None => (Raise ReferenceError, w)
    end.

(** Running a framework operation that touches no model. *)
Definition on_tf {A} (op : tf_state -> result A * tf_state) : M A :=
  fun w =>
    let '(r, t) := op (tf w) in
    (r, mkWorld (estimators w) (kmodels w) t).

(** *** probabilistic_variational_model *)

Definition probabilistic_variational_model
    (input_shape output_shape : Z) (n_hidden : int_or_list)
    (kl_weight : float) (n_layers : Z) (loss : option loss_fn) : M loc :=
  let loss :=
    match loss with
    | None => neg_log_likelihood
    | Some l => l
    end in
  let* variational_layers :=
    comprehension
      (fun i =>
         let* units := lift (getitem n_hidden i) in
         ret (DenseVariational units prior_trainable posterior_mean_field
                               kl_weight "relu" (dense_name i)))
      (range n_layers) in
  let* model :=
    Sequential
      ([InputLayer [input_shape] "input"]
         ++ variational_layers
         ++ [DenseVariational (params_size output_shape)
               prior_trainable posterior_mean_field kl_weight
               "linear" "dense_output";
             MultivariateNormalTriL output_shape
               (KLDivergenceRegularizer (prior_regularize [output_shape])
                                        kl_weight)
               "output"])
      "model" in
  let optimizer := Adam in
  compile model optimizer loss ;;;
  ret model.

(** *** variational_model *)

Definition variational_model
    (input_shape output_shape : Z) (n_hidden : int_or_list)
    (kl_weight : float) (n_layers : Z) : M loc :=
  let* n_hidden :=
    match n_hidden with
    | PyList l =>
        if negb (len l =? n_layers)
        then raise (ValueError "n_hidden must be a list of length n_layers")
        else ret l
    | PyInt h => lift (list_mul list_capacity h n_layers)
    end in
  let* variational_layers :=
    comprehension
      (fun i =>
         let* units := lift (list_getitem n_hidden i) in
         ret (DenseVariational units prior_trainable posterior_mean_field
                               kl_weight "relu" (dense_name i)))
      (range n_layers) in
  let* model :=
    Sequential
      ([InputLayer [input_shape] "input"]
         ++ variational_layers
         ++ [Dense output_shape "linear" "output"])
      "model" in
  let optimizer := Adam in
  let loss := MeanSquaredError in
  compile model optimizer loss ;;;
  ret model.

(** *** class PBNN *)

(** Attribute access on an estimator reference. *)
Definition deref (self : loc) : M PBNN_obj :=
  fun w =>
    match estimators w !! self with
    | Some o => (Ok o, w)
    | None => (Raise ReferenceError, w)
    end.

(** [self.model] *)
Definition get_model (self : loc) : M loc :=
  let* o := deref self in
  match model o with
  | Some m => ret m
  | None => raise (AttributeError "'PBNN' object has no attribute 'model'")
  end.

(** [self.model = m] *)
Definition set_model (self : loc) (m : loc) : M unit :=
  fun w =>
    match estimators w !! self with
    | Some o =>
        (Ok tt,
         mkWorld (<[self := mkPBNN (input_shape o) (output_shape o)
                              (n_hidden o) (kl_weight o) (n_layers o)
                              (epochs o) (batch_size o) (verbose o)
                              (Some m)]> (estimators w))
                 (kmodels w) (tf w))
    | None => (Raise ReferenceError, w)
    end.

(** Allocation of the instance that [__init__] receives as [self]. *)
Definition new_object (o : PBNN_obj) : M loc :=
  fun w =>
    let self := fresh (dom (estimators w)) in
    (Ok self, mkWorld (<[self := o]> (estimators w)) (kmodels w) (tf w)).

(** [PBNN(input_shape, output_shape, n_hidden, kl_weight, n_layers,
    epochs, batch_size, verbose)]; the defaults are [n_layers=2],
    [epochs=100], [batch_size=32], [verbose=0]. *)
Definition PBNN_init
    (input_shape output_shape : Z) (n_hidden : int_or_list)
    (kl_weight : float) (n_layers epochs batch_size verbose : Z) : M loc :=
  let* self :=
    new_object (mkPBNN input_shape output_shape n_hidden kl_weight
                       n_layers epochs batch_size verbose None) in
  let* m :=
    probabilistic_variational_model
      input_shape output_shape n_hidden kl_weight n_layers None in
  set_model self m ;;;
  ret self.

Definition fit (self : loc) (X : tensor) (y : option tensor) : M loc :=
  let* m := get_model self in
  let* o := deref self in
  on_model m
    (fun km => model_fit km X y (epochs o) (batch_size o) (verbose o)) ;;;
  ret self.

Definition predict (self : loc) (X : tensor) (n_samples : Z) : M tensor :=
  let* m := get_model self in
  let* d := on_model m (fun km => model_call km X) in
  on_tf (dist_sample d n_samples).

(** The default of [predict]'s [n_samples]. *)
Definition predict_n_samples : Z := 100.

Definition predict_std (self : loc) (X : tensor) : M tensor :=
  let* m := get_model self in
  let* d := on_model m (fun km => model_call km X) in
  on_tf (dist_stddev d).

Definition score (self : loc) (X : tensor) (y : option tensor) : M tensor :=
  let* m := get_model self in
  let* o := deref self in
  on_model m (fun km => model_evaluate km X y (verbose o)).

Definition transform (self : loc) (X : tensor) : M tensor :=
  predict self X predict_n_samples.

(** [fit_transform(self, X, y=None, **fit_params)]: the keyword
    arguments are accepted and not used. *)
Definition fit_transform (self : loc) (X : tensor) (y : option tensor)
    (fit_params : list (string * tensor)) : M tensor :=
  let* fitted := fit self X y in
  transform fitted X.

Definition inverse_transform {A} (self : loc) (y : A) : M A :=
  ret y.

End Module_models.

(** ** Observations on a built model *)

Section Observations.
Context `{B : Backend}.

(** The width of a hidden layer: the units of a dense layer with ReLU
    activation.  Input, output and distribution layers have none. *)
Definition hidden_width (l : Layer) : option Z :=
  match l with
  | DenseVariational u _ _ _ act _ => if String.eqb act "relu" then Some u else None
  | Dense u act _ => if String.eqb act "relu" then Some u else None
  | _ => None
  end.

Definition hidden_units (ls : list Layer) : list Z := omap hidden_width ls.

(** The loss a model was compiled with, if it was compiled. *)
Definition compiled_loss (km : KModel) : option loss_fn := snd <$> compiled km.

(** The hidden layers for the widths [ws]: the [k]-th one (from 0) has
    [ws[k]] units and is named [dense{k + 1}]. *)
Definition hidden_stack (kl : float) (ws : list Z) : list Layer :=
  imap (fun k u => DenseVariational u prior_trainable posterior_mean_field
                     kl "relu" (dense_name (Z.of_nat k))) ws.

(** The layers [probabilistic_variational_model] hands to [Sequential]
    when the hidden widths are [ws]. *)
Definition probabilistic_network (i o : Z) (kl : float) (ws : list Z)
    : list Layer :=
  InputLayer [i] "input" :: hidden_stack kl ws
    ++ [DenseVariational (params_size o) prior_trainable
          posterior_mean_field kl "linear" "dense_output";
        MultivariateNormalTriL o
          (KLDivergenceRegularizer (prior_regularize [o]) kl) "output"].

(** The layers [variational_model] hands to [Sequential] when the hidden
    widths are [ws]. *)
Definition variational_network (i o : Z) (kl : float) (ws : list Z)
    : list Layer :=
  InputLayer [i] "input" :: hidden_stack kl ws
    ++ [Dense o "linear" "output"].

(** The [name=] a layer was given. *)
Definition layer_name (l : Layer) : string :=
  match l with
  | InputLayer _ name => name
  | DenseVariational _ _ _ _ _ name => name
  | Dense _ _ name => name
  | MultivariateNormalTriL _ _ name => name
  end.

End Observations.

(** ** A small concrete framework, to run the definitions on *)

Module Toy.

#[local] Instance backend : Backend := {|
  float := Z;
  tensor := Z;
  distribution := Z;
  loss_fn := string;
  variables := nat;
  history := unit;
  tf_state := nat;
  neg_log_likelihood := "neg_log_likelihood";
  MeanSquaredError := "mse";
  params_size := fun n => n + n * (n + 1) / 2;
  list_capacity := maxsize / 8;
|}.

#[local] Instance ops : BackendOps backend := {|
  initial_variables := fun ls t => (Ok 0%nat, S t);
  model_fit := fun km X y e b v t => (Ok tt, S (vars km), t);
  model_call := fun km X t => (Ok X, vars km, S t);
  model_evaluate := fun km X y v t => (Ok X, vars km, t);
  dist_sample := fun d n t => (Ok (d + n), S t);
  dist_stddev := fun d t => (Ok d, t);
|}.

Definition empty_world : world := mkWorld ∅ ∅ 0%nat.

(** One estimator at address 1 whose model, at address 1 of the model
    store, has two hidden layers of width 8. *)
Definition fresh_estimator : world :=
  snd (PBNN_init 3 2 (PyList [8; 8]) 1 2 100 32 0 empty_world).

(** A second estimator, at address 2, with its own model at address 2. *)
Definition two_estimators : world :=
  snd (PBNN_init 4 1 (PyList [5]) 1 1 10 16 0 fresh_estimator).

(** The size of the first variable that cannot be created: a variational
    layer of [u] units on [d] inputs has [d * u + u] weights, and its
    mean-field posterior holds twice as many parameters. *)
Fixpoint negative_dimension (d : Z) (ls : list Layer) : option Z :=
  match ls with
  | [] => None
  | InputLayer [s] _ :: ls' => negative_dimension s ls'
  | DenseVariational u _ _ _ _ _ :: ls' =>
      if 2 * (d * u + u) <? 0 then Some (2 * (d * u + u))
      else negative_dimension u ls'
  | Dense u _ _ :: ls' => negative_dimension u ls'
  | _ :: ls' => negative_dimension d ls'
  end.

(** The same framework, except that it refuses, as TensorFlow does, to
    create a variable of negative size. *)
Definition checked_ops : BackendOps backend := {|
  initial_variables := fun ls t =>
    match negative_dimension 0 ls with
    | Some d =>
        (Raise (ValueError ("Dimension " +:+ pretty d +:+ " must be >= 0")), t)
    | None => (Ok 0%nat, S t)
    end;
  model_fit := fun km X y e b v t => (Ok tt, S (vars km), t);
  model_call := fun km X t => (Ok X, vars km, S t);
  model_evaluate := fun km X y v t => (Ok X, vars km, t);
  dist_sample := fun d n t => (Ok (d + n), S t);
  dist_stddev := fun d t => (Ok d, t);
|}.

(** The same framework, except that training without targets fails. *)
Definition strict_ops : BackendOps backend := {|
  initial_variables := fun ls t => (Ok 0%nat, S t);
  model_fit := fun km X y e b v t =>
    match y with
    | Some _ => (Ok tt, S (vars km), t)
    | None => (Raise (FrameworkError "no targets"), vars km, t)
    end;
  model_call := fun km X t => (Ok X, vars km, S t);
  model_evaluate := fun km X y v t => (Ok X, vars km, t);
  dist_sample := fun d n t => (Ok (d + n), S t);
  dist_stddev := fun d t => (Ok d, t);
|}.

End Toy.

(** ** Properties *)

Section Proofs.
Context `{B : Backend} `{O : !BackendOps B}.
Local Open Scope py_scope.

(** *** The store monad *)

Lemma bind_ok {A C} (m : M A) (k : A -> M C) w a w' :
  m w = (Ok a, w') -> bind m k w = k a w'.
Proof. intros E. unfold bind. now rewrite E. Qed.

Lemma bind_raise {A C} (m : M A) (k : A -> M C) w e w' :
  m w = (Raise e, w') -> bind m k w = (Raise e, w').
Proof. intros E. unfold bind. now rewrite E. Qed.

(** A comprehension whose element expression neither raises nor touches
    the store is a plain map. *)
Lemma comprehension_pure {A C} (f : A -> M C) (g : A -> C) xs w :
  (forall x, x ∈ xs -> f x w = (Ok (g x), w)) ->
  comprehension f xs w = (Ok (g <$> xs), w).
Proof.
  induction xs as [|x xs IH]; intros Hf; [reflexivity|].
  cbn [comprehension].
  rewrite (bind_ok _ _ _ _ _ (Hf x ltac:(left))).
  rewrite (bind_ok _ _ _ _ _ (IH (fun y Hy => Hf y ltac:(now right)))).
  reflexivity.
Qed.

(** It stops at the first element that raises. *)
Lemma comprehension_raise_first {A C} (f : A -> M C) x xs w e w' :
  f x w = (Raise e, w') ->
  comprehension f (x :: xs) w = (Raise e, w').
Proof. intros E. cbn [comprehension]. now apply bind_raise. Qed.

(** *** Python lists *)

Lemma elem_of_range x n : x ∈ range n -> exists k : nat, x = Z.of_nat k /\ (k < Z.to_nat n)%nat.
Proof.
  unfold range. intros [k [-> Hk]]%list_elem_of_fmap.
  apply elem_of_seq in Hk. exists k. split; [reflexivity | lia].
Qed.

Lemma range_pos n : 0 < n -> range n = 0 :: (Z.of_nat <$> seq 1 (Z.to_nat n - 1)).
Proof.
  intros Hn. unfold range.
  replace (Z.to_nat n) with (S (Z.to_nat n - 1)) at 1 by lia.
  reflexivity.
Qed.

Lemma list_getitem_nat {A} (l : list A) (k : nat) x :
  l !! k = Some x -> list_getitem l (Z.of_nat k) = Ok x.
Proof.
  intros E. unfold list_getitem. cbv zeta.
  assert ((Z.of_nat k <? 0) = false) as H by (apply Z.ltb_ge; lia).
  rewrite H. cbv iota. rewrite H.
  rewrite Nat2Z.id, E. reflexivity.
Qed.

Lemma list_getitem_beyond {A} (l : list A) (k : nat) :
  (length l <= k)%nat ->
  list_getitem l (Z.of_nat k) = Raise (IndexError "list index out of range").
Proof.
  intros Hk. unfold list_getitem. cbv zeta.
  assert ((Z.of_nat k <? 0) = false) as H by (apply Z.ltb_ge; lia).
  rewrite H. cbv iota. rewrite H.
  rewrite Nat2Z.id, (lookup_ge_None_2 l k Hk). reflexivity.
Qed.

(** Subscripting the first [n] positions of [l] reads the prefix
    [take n l], element by element. *)
Lemma prefix_reads (l : list Z) (n : Z) :
  (Z.to_nat n <= length l)%nat ->
  (fun i => default 0 (l !! Z.to_nat i)) <$> range n = take (Z.to_nat n) l.
Proof.
  intros Hn. unfold range. rewrite <- list_fmap_compose.
  apply list_eq. intros j. rewrite list_lookup_fmap.
  destruct (decide (j < Z.to_nat n)%nat) as [Hj|Hj].
  - rewrite lookup_seq_lt, lookup_take_lt by lia. cbn.
    rewrite Nat2Z.id.
    destruct (lookup_lt_is_Some_2 l j ltac:(lia)) as [x ->]. reflexivity.
  - rewrite lookup_seq_ge, lookup_take_ge by lia. reflexivity.
Qed.

(** *** The stack of hidden layers *)

(** The element expression of both factories' comprehensions, for a
    list [l'] that agrees with [l] on the first [n] positions. *)
Lemma hidden_stack_reads (l l' : list Z) (kl : float) (n : Z) w :
  (Z.to_nat n <= length l)%nat ->
  (forall j : nat, (j < Z.to_nat n)%nat -> l' !! j = l !! j) ->
  comprehension
    (fun i =>
       let* units := lift (list_getitem l' i) in
       ret (DenseVariational units prior_trainable posterior_mean_field
                             kl "relu" (dense_name i)))
    (range n) w
  = (Ok ((fun i => DenseVariational (default 0 (l !! Z.to_nat i))
                     prior_trainable posterior_mean_field
                     kl "relu" (dense_name i)) <$> range n), w).
Proof.
  intros Hn Hl. apply comprehension_pure.
  intros x [k [-> Hk]]%elem_of_range.
  destruct (lookup_lt_is_Some_2 l k ltac:(lia)) as [u Hu].
  unfold bind, lift, ret.
  rewrite (list_getitem_nat l' k u) by (rewrite Hl; assumption).
  rewrite Nat2Z.id, Hu. reflexivity.
Qed.

Lemma hidden_units_stack (f : Z -> Z) (kl : float) (xs : list Z)
    (pre post : list Layer) :
  hidden_units pre = [] -> hidden_units post = [] ->
  hidden_units
    (pre ++ ((fun i => DenseVariational (f i) prior_trainable
                         posterior_mean_field kl "relu" (dense_name i))
             <$> xs) ++ post)
  = f <$> xs.
Proof.
  intros Hpre Hpost. unfold hidden_units in *.
  rewrite !omap_app, Hpre, Hpost, app_nil_r. cbn [app].
  induction xs as [|x xs IH]; [reflexivity|].
  cbn. now rewrite IH.
Qed.

(** *** Building and compiling *)

(** The tail shared by the factories: [Sequential], [compile], return. *)
#[local] Abbreviation build ls loss :=
  (let* model := Sequential ls "model" in
   compile model Adam loss ;;; ret model).

(** It returns a compiled model when the framework builds the layers, and
    passes the framework's exception on when it does not. *)
Lemma build_compile_exact (ls : list Layer) (loss : loss_fn) w :
  build ls loss w
  = match initial_variables ls (tf w) with
    | (Ok v, t) =>
        (Ok (fresh (dom (kmodels w))),
         mkWorld (estimators w)
           (<[fresh (dom (kmodels w)) :=
                mkKModel ls "model" (Some (Adam, loss)) v]> (kmodels w))
           t)
    | (Raise e, t) => (Raise e, mkWorld (estimators w) (kmodels w) t)
    end.
Proof.
  unfold bind, Sequential, compile, ret.
  destruct (initial_variables ls (tf w)) as [[v|e] t]; [|reflexivity].
  cbn. rewrite lookup_insert_eq. cbn. now rewrite insert_insert_eq.
Qed.

Lemma fresh_model_unused w : kmodels w !! fresh (dom (kmodels w)) = None.
Proof. apply not_elem_of_dom, is_fresh. Qed.

(** *** The networks *)

Lemma hidden_stack_take (l : list Z) (kl : float) (n : Z) :
  (Z.to_nat n <= length l)%nat ->
  (fun j => DenseVariational (default 0 (l !! Z.to_nat j))
              prior_trainable posterior_mean_field kl "relu" (dense_name j))
    <$> range n
  = hidden_stack kl (take (Z.to_nat n) l).
Proof.
  intros Hn. unfold range, hidden_stack. rewrite <- list_fmap_compose.
  apply list_eq. intros j.
  rewrite list_lookup_fmap, list_lookup_imap.
  destruct (decide (j < Z.to_nat n)%nat) as [Hj|Hj].
  - rewrite lookup_seq_lt, lookup_take_lt by lia. cbn.
    rewrite Nat2Z.id.
    destruct (lookup_lt_is_Some_2 l j ltac:(lia)) as [x ->]. reflexivity.
  - rewrite lookup_seq_ge, lookup_take_ge by lia. reflexivity.
Qed.

Lemma hidden_units_named_omap (g : nat -> string) (kl : float)
    (ws : list Z) :
  omap hidden_width
    (imap (fun k u => DenseVariational u prior_trainable posterior_mean_field
                        kl "relu" (g k)) ws)
  = ws.
Proof.
  revert g. induction ws as [|u ws IH]; intros g; [reflexivity|].
  cbn. f_equal. apply (IH (g ∘ S)).
Qed.

Lemma hidden_units_probabilistic i o (kl : float) ws :
  hidden_units (probabilistic_network i o kl ws) = ws.
Proof.
  unfold probabilistic_network.
  rewrite (app_comm_cons _ _ (InputLayer [i] "input")).
  unfold hidden_units. rewrite omap_app.
  cbn [omap list_omap hidden_width].
  unfold hidden_stack.
  rewrite (hidden_units_named_omap (fun k => dense_name (Z.of_nat k))).
  cbn. apply app_nil_r.
Qed.

Lemma hidden_units_variational i o (kl : float) ws :
  hidden_units (variational_network i o kl ws) = ws.
Proof.
  unfold variational_network.
  rewrite (app_comm_cons _ _ (InputLayer [i] "input")).
  unfold hidden_units. rewrite omap_app.
  cbn [omap list_omap hidden_width].
  unfold hidden_stack.
  rewrite (hidden_units_named_omap (fun k => dense_name (Z.of_nat k))).
  cbn. apply app_nil_r.
Qed.

(** *** The factories, unfolded to comprehension-then-build *)

(** On a list whose first [n_layers] entries exist, and are those of
    [l], [probabilistic_variational_model] is the construction of the
    network of those widths. *)
Lemma probabilistic_on_prefix i o (l l' : list Z) (kl : float) n loss w :
  (Z.to_nat n <= length l)%nat ->
  (forall j : nat, (j < Z.to_nat n)%nat -> l' !! j = l !! j) ->
  probabilistic_variational_model i o (PyList l') kl n loss w
  = build (probabilistic_network i o kl (take (Z.to_nat n) l))
          (match loss with None => neg_log_likelihood | Some f => f end) w.
Proof.
  intros Hn Hl.
  unfold probabilistic_variational_model, getitem.
  rewrite (bind_ok _ _ _ _ _ (hidden_stack_reads l l' kl n w Hn Hl)).
  rewrite (hidden_stack_take l kl n Hn). reflexivity.
Qed.

Lemma probabilistic_scalar_raises i o h (kl : float) n loss w :
  0 < n ->
  probabilistic_variational_model i o (PyInt h) kl n loss w
  = (Raise (TypeError "'int' object is not subscriptable"), w).
Proof.
  intros Hn. unfold probabilistic_variational_model.
  apply bind_raise. rewrite (range_pos n Hn).
  now apply comprehension_raise_first.
Qed.

Lemma list_mul_returned {A} c (x : A) n l :
  list_mul c x n = Ok l ->
  l = replicate (Z.to_nat n) x /\ - maxsize - 1 <= n <= maxsize /\ n <= c.
Proof.
  unfold list_mul.
  destruct (Z.ltb_spec n (- maxsize - 1)); [discriminate|].
  destruct (Z.ltb_spec maxsize n); [discriminate|]. cbn.
  destruct (Z.ltb_spec c n); [discriminate|].
  intros [= <-]. split; [reflexivity | lia].
Qed.

Lemma len_list_mul {A} c (x : A) n l :
  0 <= n -> list_mul c x n = Ok l -> len l = n.
Proof.
  intros Hn [-> _]%list_mul_returned.
  unfold len. rewrite length_replicate. lia.
Qed.

(** [variational_model] once [n_hidden] has been normalised to the list
    [l] of [n_layers] widths is the construction of their network. *)
Lemma variational_on_widths i o nh (l : list Z) (kl : float) n w :
  match nh with
  | PyList l0 => l0 = l /\ len l = n
  | PyInt h => list_mul list_capacity h n = Ok l
  end ->
  variational_model i o nh kl n w
  = build (variational_network i o kl l) MeanSquaredError w.
Proof.
  intros Hl.
  assert (Hn : length l = Z.to_nat n).
  { destruct nh as [h|l0].
    - apply list_mul_returned in Hl as [-> _]. apply length_replicate.
    - destruct Hl as [_ Hlen]. unfold len in Hlen. lia. }
  unfold variational_model.
  rewrite (bind_ok _ _ w l w).
  - rewrite (bind_ok _ _ _ _ _
               (hidden_stack_reads l l kl n w ltac:(lia) (fun _ _ => eq_refl))).
    rewrite (hidden_stack_take l kl n) by lia.
    rewrite take_ge by lia. reflexivity.
  - destruct nh as [h|l0]; [unfold lift; now rewrite Hl|].
    destruct Hl as [-> Hlen].
    now rewrite (proj2 (Z.eqb_eq _ _) Hlen).
Qed.

(** *** The estimator *)

Lemma fit_returns self X y w r w' :
  fit self X y w = (Ok r, w') -> r = self.
Proof.
  unfold fit, bind.
  destruct (get_model self w) as [[m|e] w1]; [|discriminate].
  destruct (deref self w1) as [[o|e] w2]; [|discriminate].
  destruct (on_model m _ w2) as [[hst|e] w3]; [|discriminate].
  unfold ret. now intros [= <- _].
Qed.

End Proofs.

(** ** The specification's claims *)

Section Claims.
Context `{B : Backend} `{O : !BackendOps B}.
Local Open Scope py_scope.

(** C1.  [variational_model] called with a list [n_hidden] whose length
    differs from [n_layers] raises
    [ValueError("n_hidden must be a list of length n_layers")]; the store
    is left as it was, so no model object has been constructed. *)
Theorem variational_model_rejects_length_mismatch
    i o (l : list Z) (kl : float) n w :
  len l <> n ->
  variational_model i o (PyList l) kl n w
  = (Raise (ValueError "n_hidden must be a list of length n_layers"), w).
Proof.
  intros Hlen. unfold variational_model. apply bind_raise.
  destruct (Z.eqb_spec (len l) n) as [E|_]; [contradiction|reflexivity].
Qed.

(** C2, at the input [n_hidden=[8, 8, 8]], [n_layers=2]:
    [probabilistic_variational_model] makes no length check.  The call
    runs exactly as the call with [[8, 8]] does and, the framework
    building that two-layer network, returns a model with hidden widths
    [[8, 8]]; at [n_hidden=[8]], [n_layers=2] what is raised is the
    interpreter's [IndexError] from the subscript. *)
Theorem probabilistic_variational_model_length_unchecked
    (kl : float) loss w :
  probabilistic_variational_model 3 2 (PyList [8; 8; 8]) kl 2 loss w
  = probabilistic_variational_model 3 2 (PyList [8; 8]) kl 2 loss w
  /\ (forall v t,
        initial_variables (probabilistic_network 3 2 kl [8; 8]) (tf w)
        = (Ok v, t) ->
        exists m w' km,
          probabilistic_variational_model 3 2 (PyList [8; 8; 8]) kl 2 loss w
          = (Ok m, w')
          /\ kmodels w' !! m = Some km
          /\ hidden_units (layers km) = [8; 8])
  /\ probabilistic_variational_model 3 2 (PyList [8]) kl 2 loss w
     = (Raise (IndexError "list index out of range"), w).
Proof.
  split; [reflexivity|]. split; [|reflexivity].
  intros v t Hbuilt.
  rewrite (probabilistic_on_prefix 3 2 [8; 8; 8] [8; 8; 8] kl 2 loss w)
    by (cbn; lia || reflexivity).
  rewrite build_compile_exact.
  change (take (Z.to_nat 2) [8; 8; 8]) with [8; 8]. rewrite Hbuilt.
  eexists _, _, _. split; [reflexivity|]. cbn [kmodels].
  rewrite lookup_insert_eq. split; [reflexivity|].
  apply hidden_units_probabilistic.
Qed.

(** C3, for [n_layers >= 0].  [variational_model] called with a scalar
    [n_hidden = h] runs exactly as the call with the list [[h] * n_layers]
    does: same model or same exception, same store.  Where that list
    cannot be built the scalar call raises what building it raises.  In
    a model the scalar call returns, every one of the [n_layers] hidden
    layers has width [h]. *)
Theorem variational_model_scalar_expands i o h (kl : float) n w :
  0 <= n ->
  match list_mul list_capacity h n with
  | Ok l =>
      variational_model i o (PyInt h) kl n w
      = variational_model i o (PyList l) kl n w
  | Raise e => variational_model i o (PyInt h) kl n w = (Raise e, w)
  end
  /\ forall m w',
       variational_model i o (PyInt h) kl n w = (Ok m, w') ->
       exists km,
         kmodels w' !! m = Some km
         /\ hidden_units (layers km) = replicate (Z.to_nat n) h.
Proof.
  intros Hn. destruct (list_mul list_capacity h n) as [l|e] eqn:Hmul.
  - pose proof (len_list_mul list_capacity h n l Hn Hmul) as Hlen.
    rewrite (variational_on_widths i o (PyInt h) l kl n w Hmul).
    split.
    + symmetry. now apply variational_on_widths.
    + intros m w'. rewrite build_compile_exact.
      destruct (initial_variables _ (tf w)) as [[v|e] t]; [|discriminate].
      intros [= <- <-]. eexists. cbn [kmodels].
      rewrite lookup_insert_eq. split; [reflexivity|]. cbn [layers].
      rewrite hidden_units_variational.
      now apply list_mul_returned in Hmul as [-> _].
  - assert (E : variational_model i o (PyInt h) kl n w = (Raise e, w)).
    { unfold variational_model. apply bind_raise.
      unfold lift. now rewrite Hmul. }
    split; [exact E|]. intros m w'. rewrite E. discriminate.
Qed.

(** C4, at the input [n_hidden=8], [n_layers=2]:
    [probabilistic_variational_model] does not expand the scalar; the
    first subscript [n_hidden[0]] raises [TypeError] and no model is
    built. *)
Theorem probabilistic_variational_model_scalar_not_expanded
    (kl : float) loss w :
  probabilistic_variational_model 3 2 (PyInt 8) kl 2 loss w
  = (Raise (TypeError "'int' object is not subscriptable"), w).
Proof. apply probabilistic_scalar_raises. lia. Qed.

(** C5.  [PBNN.inverse_transform(y)] returns [y] and leaves the store
    untouched, whatever the estimator and whatever its state. *)
Theorem inverse_transform_identity {A} self (y : A) w :
  inverse_transform self y w = (Ok y, w).
Proof. reflexivity. Qed.

(** C6.  [PBNN.transform(X)] is [PBNN.predict(X)] with [n_samples] at its
    default of 100: same result (or same exception), same final store. *)
Theorem transform_is_predict self X w :
  transform self X w = predict self X 100 w.
Proof. reflexivity. Qed.

(** C7.  [PBNN.fit_transform(X, y)] is [fit(X, y)] followed by
    [transform(X)] on the same estimator, in the store [fit] leaves; when
    [fit] raises, so does [fit_transform], in that store. *)
Theorem fit_transform_is_fit_then_transform self X y fit_params w :
  fit_transform self X y fit_params w
  = match fit self X y w with
    | (Ok _, w') => transform self X w'
    | (Raise e, w') => (Raise e, w')
    end.
Proof.
  unfold fit_transform, bind.
  destruct (fit self X y w) as [[r|e] w'] eqn:E; [|reflexivity].
  now rewrite (fit_returns _ _ _ _ _ _ E).
Qed.

(** C8, for what the function itself does.
    [probabilistic_variational_model] called with a list [n_hidden]
    strictly longer than [n_layers] has no length or subscript error to
    raise: the call runs exactly as it does on the list cut to its first
    [n_layers] entries; a model it returns has those entries as hidden
    widths; it returns whenever the framework builds the network of those
    widths, and an exception it raises is the one the framework raised
    building that network. *)
Theorem probabilistic_variational_model_ignores_surplus
    i o (l : list Z) (kl : float) n loss w :
  n < len l ->
  probabilistic_variational_model i o (PyList l) kl n loss w
  = probabilistic_variational_model
      i o (PyList (take (Z.to_nat n) l)) kl n loss w
  /\ (forall m w',
        probabilistic_variational_model i o (PyList l) kl n loss w
        = (Ok m, w') ->
        exists km,
          kmodels w' !! m = Some km
          /\ hidden_units (layers km) = take (Z.to_nat n) l)
  /\ (forall v t,
        initial_variables
          (probabilistic_network i o kl (take (Z.to_nat n) l)) (tf w)
        = (Ok v, t) ->
        exists m w',
          probabilistic_variational_model i o (PyList l) kl n loss w
          = (Ok m, w'))
  /\ (forall e w',
        probabilistic_variational_model i o (PyList l) kl n loss w
        = (Raise e, w') ->
        exists t,
          initial_variables
            (probabilistic_network i o kl (take (Z.to_nat n) l)) (tf w)
          = (Raise e, t)).
Proof.
  intros Hn. unfold len in Hn.
  rewrite (probabilistic_on_prefix i o l l kl n loss w)
    by (lia || reflexivity).
  rewrite (probabilistic_on_prefix i o l (take (Z.to_nat n) l) kl n loss w)
    by (lia || (intros j Hj; now apply lookup_take_lt)).
  split; [reflexivity|].
  rewrite build_compile_exact.
  destruct (initial_variables _ (tf w)) as [[v|e] t].
  - split; [|split].
    + intros m w' [= <- <-]. eexists. cbn [kmodels].
      rewrite lookup_insert_eq. split; [reflexivity|].
      apply hidden_units_probabilistic.
    + intros _ _ _. eauto.
    + discriminate.
  - split; [|split].
    + discriminate.
    + discriminate.
    + intros e' w' [= <- _]. now exists t.
Qed.

(** C9.  [PBNN.fit(X, y)] returns [self]: once the underlying
    [model.fit] has returned, the result is the estimator's own reference
    and the store holds the trained variables. *)
Theorem fit_returns_self self X y w o m km hst v t :
  estimators w !! self = Some o ->
  model o = Some m ->
  kmodels w !! m = Some km ->
  model_fit km X y (epochs o) (batch_size o) (verbose o) (tf w)
  = (Ok hst, v, t) ->
  fit self X y w
  = (Ok self,
     mkWorld (estimators w)
             (<[m := mkKModel (layers km) (model_name km) (compiled km) v]>
                (kmodels w))
             t).
Proof.
  intros Hself Hmodel Hkm Hfit.
  unfold fit, bind, get_model, bind, deref, on_model, ret.
  rewrite Hself, Hmodel, Hself, Hkm, Hfit. reflexivity.
Qed.

(** C10.  The model returned by [probabilistic_variational_model] is
    compiled with [neg_log_likelihood] when [loss] is omitted or [None],
    and with the supplied loss otherwise. *)
Theorem probabilistic_variational_model_loss
    i o nh (kl : float) n loss w m w' :
  probabilistic_variational_model i o nh kl n loss w = (Ok m, w') ->
  exists km,
    kmodels w' !! m = Some km
    /\ (loss = None -> compiled_loss km = Some neg_log_likelihood)
    /\ (forall f, loss = Some f -> compiled_loss km = Some f).
Proof.
  unfold probabilistic_variational_model, bind at 1.
  destruct (comprehension _ (range n) w) as [[vl|e] w1]; [|discriminate].
  rewrite build_compile_exact.
  destruct (initial_variables _ (tf w1)) as [[v|e] t]; [|discriminate].
  intros [= <- <-].
  eexists. cbn [kmodels]. rewrite lookup_insert_eq.
  split; [reflexivity|].
  split; [now intros -> | now intros f ->].
Qed.

End Claims.

(** ** The claims on the concrete framework *)

Section Runs.
#[local] Existing Instances Toy.backend Toy.ops.

Lemma variational_model_rejects_length_mismatch_run :
  variational_model 3 2 (PyList [8; 8; 8]) 1 2 Toy.empty_world
  = (Raise (ValueError "n_hidden must be a list of length n_layers"),
     Toy.empty_world).
Proof.
  apply (variational_model_rejects_length_mismatch (B := Toy.backend) 3 2 [8; 8; 8] 1 2).
  unfold len; simpl; lia.
Defined.

Lemma probabilistic_variational_model_length_unchecked_run :
  exists m w' km,
    probabilistic_variational_model 3 2 (PyList [8; 8; 8]) 1 2 None
      Toy.empty_world = (Ok m, w')
    /\ kmodels w' !! m = Some km
    /\ hidden_units (layers km) = [8; 8].
Proof.
  apply (proj1 (proj2 (probabilistic_variational_model_length_unchecked
                         (B := Toy.backend) 1 None Toy.empty_world))
           0%nat 1%nat).
  reflexivity.
Defined.

(** C3 as stated, for every [n_layers]: with [n_layers = -1] the scalar
    call returns a model without hidden layers, while [[8] * -1] is the
    empty list, whose length 0 is not -1, so the list call is rejected. *)
Lemma variational_model_scalar_negative_layers :
  list_mul list_capacity 8 (-1) = Ok []
  /\ variational_model 3 2 (PyInt 8) 1 (-1) Toy.empty_world
     <> variational_model 3 2 (PyList []) 1 (-1) Toy.empty_world.
Proof. split; [reflexivity|]. vm_compute. discriminate. Qed.

Lemma variational_model_scalar_expands_run :
  variational_model 3 2 (PyInt 8) 1 2 Toy.empty_world
  = variational_model 3 2 (PyList [8; 8]) 1 2 Toy.empty_world
  /\ forall m w',
       variational_model 3 2 (PyInt 8) 1 2 Toy.empty_world = (Ok m, w') ->
       exists km,
         kmodels w' !! m = Some km
         /\ hidden_units (layers km) = replicate (Z.to_nat 2) 8.
Proof.
  apply (variational_model_scalar_expands
           (B := Toy.backend) 3 2 8 1 2 Toy.empty_world).
  lia.
Defined.

(** C8 as stated, that no error is raised: on a framework that refuses
    variables of negative size, the longer list [[-8, 8, 8]] with
    [n_layers = 2] passes the subscripts and then fails in [Sequential],
    whose first hidden layer would need 2 * (3 * -8 + -8) = -64
    posterior parameters. *)
Lemma probabilistic_variational_model_surplus_negative_width :
  2 < len [-8; 8; 8]
  /\ probabilistic_variational_model (B := Toy.backend) (O := Toy.checked_ops)
       3 2 (PyList [-8; 8; 8]) 1 2 None Toy.empty_world
     = (Raise (ValueError "Dimension -64 must be >= 0"), Toy.empty_world).
Proof. split; [reflexivity|]. vm_compute. reflexivity. Qed.

Lemma probabilistic_variational_model_ignores_surplus_run :
  probabilistic_variational_model 3 2 (PyList [8; 4; 6]) 1 2 None
    Toy.empty_world
  = probabilistic_variational_model
      3 2 (PyList (take (Z.to_nat 2) [8; 4; 6])) 1 2 None Toy.empty_world
  /\ (forall m w',
        probabilistic_variational_model 3 2 (PyList [8; 4; 6]) 1 2 None
          Toy.empty_world = (Ok m, w') ->
        exists km,
          kmodels w' !! m = Some km
          /\ hidden_units (layers km) = take (Z.to_nat 2) [8; 4; 6])
  /\ (forall v t,
        initial_variables
          (probabilistic_network 3 2 1 (take (Z.to_nat 2) [8; 4; 6]))
          (tf Toy.empty_world)
        = (Ok v, t) ->
        exists m w',
          probabilistic_variational_model 3 2 (PyList [8; 4; 6]) 1 2 None
            Toy.empty_world = (Ok m, w'))
  /\ (forall e w',
        probabilistic_variational_model 3 2 (PyList [8; 4; 6]) 1 2 None
          Toy.empty_world = (Raise e, w') ->
        exists t,
          initial_variables
            (probabilistic_network 3 2 1 (take (Z.to_nat 2) [8; 4; 6]))
            (tf Toy.empty_world)
          = (Raise e, t)).
Proof.
  apply (probabilistic_variational_model_ignores_surplus
           (B := Toy.backend) 3 2 [8; 4; 6] 1 2 None Toy.empty_world).
  unfold len; simpl; lia.
Defined.

Lemma fit_returns_self_run :
  exists w', fit 1%positive 5 None Toy.fresh_estimator = (Ok 1%positive, w').
Proof.
  eexists.
  eapply (fit_returns_self (B := Toy.backend) 1%positive 5 None Toy.fresh_estimator);
    reflexivity.
Defined.

Lemma probabilistic_variational_model_loss_run :
  exists km,
    kmodels (snd (probabilistic_variational_model
                    3 2 (PyList [8; 8]) 1 2 None Toy.empty_world))
      !! 1%positive = Some km
    /\ (@None loss_fn = None -> compiled_loss km = Some neg_log_likelihood)
    /\ (forall f, None = Some f -> compiled_loss km = Some f).
Proof.
  apply (probabilistic_variational_model_loss (B := Toy.backend)
           3 2 (PyList [8; 8]) 1 2 None Toy.empty_world).
  vm_compute. reflexivity.
Defined.

End Runs.

(** ** Further properties of the module *)

Section More_lemmas.
Context `{B : Backend} `{O : !BackendOps B}.
Local Open Scope py_scope.

(** *** Comprehensions over a subscript *)

(** The element expression shared by the two factories. *)
#[local] Abbreviation hidden_layer nh kl :=
  (fun i =>
     let* units := lift (getitem nh i) in
     ret (DenseVariational units prior_trainable posterior_mean_field
                           kl "relu" (dense_name i))).

Lemma stack_returned nh (kl : float) xs w vl w1 :
  comprehension (hidden_layer nh kl) xs w = (Ok vl, w1) ->
  w1 = w
  /\ Forall2 (fun i L => exists u, getitem nh i = Ok u
                /\ L = DenseVariational u prior_trainable
                         posterior_mean_field kl "relu" (dense_name i))
       xs vl.
Proof.
  revert vl w1.
  induction xs as [|x xs IH]; intros vl w1; cbn [comprehension].
  - unfold ret. intros [= <- <-]. split; [reflexivity|constructor].
  - unfold bind at 1. unfold bind at 1. unfold lift.
    destruct (getitem nh x) as [u|e] eqn:Hu; [|discriminate].
    unfold ret at 1. unfold bind.
    destruct (comprehension _ xs w) as [[ys|e] w2] eqn:Hys; [|discriminate].
    destruct (IH ys w2 eq_refl) as [-> Hall].
    unfold ret. intros [= <- <-]. split; [reflexivity|].
    constructor; [now exists u | assumption].
Qed.

Lemma stack_raised nh (kl : float) xs w e w1 :
  comprehension (hidden_layer nh kl) xs w = (Raise e, w1) ->
  w1 = w /\ exists i, i ∈ xs /\ getitem nh i = Raise e.
Proof.
  revert w1.
  induction xs as [|x xs IH]; intros w1; cbn [comprehension]; [discriminate|].
  unfold bind at 1. unfold bind at 1. unfold lift.
  destruct (getitem nh x) as [u|e0] eqn:Hu.
  - unfold ret at 1. unfold bind.
    destruct (comprehension _ xs w) as [[ys|e1] w2] eqn:Hys; [discriminate|].
    intros [= <- <-]. destruct (IH w2 eq_refl) as [-> (i & Hi & Hget)].
    split; [reflexivity|]. exists i. split; [now right | assumption].
  - intros [= <- <-]. split; [reflexivity|].
    exists x. split; [now left | assumption].
Qed.

Lemma elem_of_range_2 (k : nat) n : (k < Z.to_nat n)%nat -> Z.of_nat k ∈ range n.
Proof.
  intros Hk. unfold range. apply list_elem_of_fmap.
  exists k. split; [reflexivity|]. apply elem_of_seq. lia.
Qed.

Lemma range_nonpos n : n <= 0 -> range n = [].
Proof. intros Hn. unfold range. now replace (Z.to_nat n) with 0%nat by lia. Qed.

Lemma length_range n : length (range n) = Z.to_nat n.
Proof. unfold range. now rewrite length_fmap, length_seq. Qed.

(** Which subscripts of [n_hidden] over [range(n_layers)] go through. *)
Lemma subscripts_ok nh n :
  (forall i, i ∈ range n -> exists u, getitem nh i = Ok u)
  <-> n <= 0 \/ exists l, nh = PyList l /\ n <= len l.
Proof.
  split.
  - intros Hall. destruct (Z_le_gt_dec n 0) as [Hn|Hn]; [now left | right].
    destruct nh as [h|l].
    + destruct (Hall 0 (elem_of_range_2 0 n ltac:(lia))) as [u Hu].
      discriminate Hu.
    + exists l. split; [reflexivity|].
      destruct (Z_le_gt_dec n (len l)) as [Hl|Hl]; [assumption|].
      unfold len in Hl.
      destruct (Hall _ (elem_of_range_2 (length l) n ltac:(lia))) as [u Hu].
      cbn in Hu. rewrite list_getitem_beyond in Hu by lia. discriminate Hu.
  - intros [Hn | (l & -> & Hl)] i Hi.
    + rewrite (range_nonpos n Hn) in Hi. now apply elem_of_nil in Hi.
    + apply elem_of_range in Hi as (k & -> & Hk). unfold len in Hl.
      destruct (lookup_lt_is_Some_2 l k ltac:(lia)) as [u Hu].
      exists u. now apply list_getitem_nat.
Qed.

(** A subscript over [range(n_layers)] can only fail in two ways. *)
Lemma subscript_raised nh n i e :
  i ∈ range n -> getitem nh i = Raise e ->
  0 < n
  /\ match nh with
     | PyInt _ => e = TypeError "'int' object is not subscriptable"
     | PyList l => e = IndexError "list index out of range" /\ len l < n
     end.
Proof.
  intros (k & -> & Hk)%elem_of_range Hget. split; [lia|].
  destruct nh as [h|l]; cbn in Hget; [now injection Hget|].
  destruct (decide (k < length l)%nat) as [Hlt|Hge].
  - destruct (lookup_lt_is_Some_2 l k Hlt) as [u Hu].
    rewrite (list_getitem_nat l k u Hu) in Hget. discriminate Hget.
  - rewrite list_getitem_beyond in Hget by lia.
    injection Hget as <-. unfold len. split; [reflexivity | lia].
Qed.

(** *** Fresh references *)

Lemma fresh_estimator_unused w :
  estimators w !! fresh (dom (estimators w)) = None.
Proof. apply not_elem_of_dom, is_fresh. Qed.

(** *** Layer names *)

Lemma pretty_N_go_no_underscore (x : N) s s' :
  s <> "_" +:+ s' -> pretty_N_go x s <> "_" +:+ s'.
Proof.
  revert s. induction (N.lt_wf_0 x) as [x _ IH]. intros s Hs.
  destruct (N.eq_0_gt_0_cases x) as [->|Hx]; [assumption|].
  rewrite pretty_N_go_step by assumption.
  apply IH; [now apply N.div_lt|].
  unfold pretty_N_char. repeat case_match; discriminate.
Qed.

Lemma pretty_Z_no_underscore (z : Z) s : pretty z <> "_" +:+ s.
Proof.
  assert (HN : forall x : N, pretty x <> "_" +:+ s).
  { intros x. unfold pretty, pretty_N.
    case_decide; [discriminate|].
    now apply pretty_N_go_no_underscore. }
  destruct z as [|p|p]; [discriminate | apply (HN (Npos p)) | discriminate].
Qed.

Lemma dense_name_inj i j : dense_name i = dense_name j -> i = j.
Proof.
  unfold dense_name. cbn. intros [= H].
  apply pretty_Z_inj in H. lia.
Qed.

Lemma dense_name_fresh i :
  dense_name i <> "input" /\ dense_name i <> "output"
  /\ dense_name i <> "dense_output".
Proof.
  unfold dense_name. cbn. repeat split; try discriminate.
  intros [= H]. now apply (pretty_Z_no_underscore _ "output") in H.
Qed.

Lemma NoDup_range n : NoDup (range n).
Proof.
  unfold range. apply NoDup_fmap_2; [apply Nat2Z.inj' | apply NoDup_seq].
Qed.

Lemma NoDup_dense_names xs : NoDup xs -> NoDup (dense_name <$> xs).
Proof.
  induction 1 as [|x xs Hx _ IH]; cbn; constructor; [|assumption].
  intros (y & Hy & Hin)%list_elem_of_fmap.
  apply dense_name_inj in Hy. now subst.
Qed.

Lemma stack_names nh (kl : float) xs vl :
  Forall2 (fun i L => exists u, getitem nh i = Ok u
             /\ L = DenseVariational u prior_trainable
                      posterior_mean_field kl "relu" (dense_name i))
    xs vl ->
  layer_name <$> vl = dense_name <$> xs.
Proof.
  induction 1 as [|x L xs vl (u & _ & ->) _ IH]; [reflexivity|].
  cbn. now rewrite IH.
Qed.

(** Names [input], [dense1] .. [denseN] and then the names in [tl], none
    of which is a [dense{i}], never clash. *)
Lemma NoDup_model_names n (tl : list string) :
  NoDup tl -> "input" ∉ tl ->
  (forall i, dense_name i ∉ tl) ->
  NoDup ("input" :: (dense_name <$> range n) ++ tl).
Proof.
  intros Htl Hin Hd. constructor.
  - intros [(i & Hi & _)%list_elem_of_fmap | ?]%elem_of_app; [|contradiction].
    now destruct (dense_name_fresh i) as (? & _).
  - apply NoDup_app. split; [apply NoDup_dense_names, NoDup_range|].
    split; [|assumption].
    intros x (i & -> & _)%list_elem_of_fmap. apply Hd.
Qed.

(** *** What a returning or a raising factory call has done *)

Lemma probabilistic_returned i o nh (kl : float) n loss w m w' :
  probabilistic_variational_model i o nh kl n loss w = (Ok m, w') ->
  exists vl ls v t,
    Forall2 (fun i L => exists u, getitem nh i = Ok u
               /\ L = DenseVariational u prior_trainable
                        posterior_mean_field kl "relu" (dense_name i))
      (range n) vl
    /\ ls = InputLayer [i] "input" :: vl
            ++ [DenseVariational (params_size o) prior_trainable
                  posterior_mean_field kl "linear" "dense_output";
                MultivariateNormalTriL o
                  (KLDivergenceRegularizer (prior_regularize [o]) kl)
                  "output"]
    /\ m = fresh (dom (kmodels w))
    /\ w' = mkWorld (estimators w)
              (<[m := mkKModel ls "model"
                        (Some (Adam, match loss with
                                     | None => neg_log_likelihood
                                     | Some f => f
                                     end))
                        v]> (kmodels w))
              t
    /\ initial_variables ls (tf w) = (Ok v, t).
Proof.
  unfold probabilistic_variational_model. unfold bind at 1.
  destruct (comprehension _ (range n) w) as [[vl|e] w1] eqn:Hc; [|discriminate].
  apply stack_returned in Hc as [-> Hall].
  rewrite build_compile_exact.
  destruct (initial_variables _ (tf w)) as [[v|e] t] eqn:Hbuilt; [|discriminate].
  intros [= <- <-].
  eexists vl, _, v, t. split; [exact Hall|]. split; [reflexivity|].
  split; [reflexivity|]. split; [reflexivity | exact Hbuilt].
Qed.

(** It raises either at a subscript, before anything is built, or
    where the framework builds the model. *)
Lemma probabilistic_raised i o nh (kl : float) n loss w e w' :
  probabilistic_variational_model i o nh kl n loss w = (Raise e, w') ->
  (w' = w /\ exists j, j ∈ range n /\ getitem nh j = Raise e)
  \/ (exists vl ls t,
        Forall2 (fun i L => exists u, getitem nh i = Ok u
                   /\ L = DenseVariational u prior_trainable
                            posterior_mean_field kl "relu" (dense_name i))
          (range n) vl
        /\ initial_variables ls (tf w) = (Raise e, t)
        /\ w' = mkWorld (estimators w) (kmodels w) t).
Proof.
  unfold probabilistic_variational_model. unfold bind at 1.
  destruct (comprehension _ (range n) w) as [[vl|e0] w1] eqn:Hc.
  - apply stack_returned in Hc as [-> Hall].
    rewrite build_compile_exact.
    destruct (initial_variables _ (tf w)) as [[v|e1] t] eqn:Hbuilt;
      [discriminate|].
    intros [= <- <-]. right. eexists vl, _, t.
    split; [exact Hall|]. split; [exact Hbuilt | reflexivity].
  - intros [= <- <-]. left. now apply stack_raised in Hc.
Qed.

Lemma Forall2_range_elem {A} (P : Z -> A -> Prop) n (ys : list A) j :
  Forall2 P (range n) ys -> j ∈ range n -> exists y, P j y.
Proof.
  intros Hall (k & Hk)%list_elem_of_lookup_1.
  destruct (Forall2_lookup_l _ _ _ _ _ Hall Hk) as (y & _ & Hy).
  now exists y.
Qed.

Lemma probabilistic_returned_subscripts i o nh (kl : float) n loss w m w' :
  probabilistic_variational_model i o nh kl n loss w = (Ok m, w') ->
  forall j, j ∈ range n -> exists u, getitem nh j = Ok u.
Proof.
  intros (vl & _ & _ & _ & Hall & _)%probabilistic_returned j Hj.
  destruct (Forall2_range_elem _ _ _ _ Hall Hj) as (L & u & Hu & _).
  now exists u.
Qed.

Lemma normalised_length nh n (l : list Z) :
  (match nh with
    | PyList l0 => l0 = l /\ len l = n
    | PyInt h0 => list_mul list_capacity h0 n = Ok l
    end) -> length l = Z.to_nat n.
Proof.
  destruct nh as [h|l0].
  - intros [-> _]%list_mul_returned. apply length_replicate.
  - intros [_ Hlen]. unfold len in Hlen. lia.
Qed.

Lemma variational_returned i o nh (kl : float) n w m w' :
  variational_model i o nh kl n w = (Ok m, w') ->
  exists l v t,
    match nh with
    | PyList l0 => l0 = l /\ len l = n
    | PyInt h0 => list_mul list_capacity h0 n = Ok l
    end
    /\ m = fresh (dom (kmodels w))
    /\ w' = mkWorld (estimators w)
              (<[m := mkKModel (variational_network i o kl l) "model"
                        (Some (Adam, MeanSquaredError)) v]> (kmodels w))
              t
    /\ initial_variables (variational_network i o kl l) (tf w) = (Ok v, t).
Proof.
  intros Hrun.
  assert (Hl : exists l, match nh with
    | PyList l0 => l0 = l /\ len l = n
    | PyInt h0 => list_mul list_capacity h0 n = Ok l
    end).
  { destruct nh as [h|l0].
    - destruct (list_mul list_capacity h n) as [l|e] eqn:Hmul; [now exists l|].
      unfold variational_model in Hrun.
      rewrite (bind_raise _ _ w e w) in Hrun; [discriminate|].
      unfold lift. now rewrite Hmul.
    - destruct (Z.eqb_spec (len l0) n) as [E|E]; [now exists l0|].
      unfold variational_model in Hrun.
      rewrite (bind_raise _ _ w
                 (ValueError "n_hidden must be a list of length n_layers") w)
        in Hrun; [discriminate|].
      destruct (Z.eqb_spec (len l0) n); [contradiction | reflexivity]. }
  destruct Hl as [l Hl].
  rewrite (variational_on_widths i o nh l kl n w Hl), build_compile_exact
    in Hrun.
  destruct (initial_variables _ (tf w)) as [[v|e] t] eqn:Hbuilt;
    [|discriminate].
  injection Hrun as <- <-.
  exists l, v, t. split; [exact Hl|]. split; [reflexivity|].
  split; [reflexivity | exact Hbuilt].
Qed.


Lemma hidden_stack_names (kl : float) (ws : list Z) :
  layer_name <$> hidden_stack kl ws = dense_name <$> range (len ws).
Proof.
  rewrite <- (take_ge ws (Z.to_nat (len ws))) at 1 by (unfold len; lia).
  rewrite <- hidden_stack_take by (unfold len; lia).
  now rewrite <- list_fmap_compose.
Qed.

End More_lemmas.

(** ** The factories: when they return, what they build, how they fail *)

Section Factory_properties.
Context `{B : Backend} `{O : !BackendOps B}.
Local Open Scope py_scope.

(** X1.  [probabilistic_variational_model] returns a model only when
    every subscript [n_hidden[i]], [i < n_layers], goes through: when
    [n_layers <= 0], or when [n_hidden] is a list of at least [n_layers]
    entries.  A scalar, or a shorter list, with [n_layers >= 1] never
    yields a model. *)
Theorem probabilistic_variational_model_returns_only_if
    i o nh (kl : float) n loss w m w' :
  probabilistic_variational_model i o nh kl n loss w = (Ok m, w') ->
  n <= 0 \/ exists l, nh = PyList l /\ n <= len l.
Proof.
  intros Hrun. apply subscripts_ok.
  exact (probabilistic_returned_subscripts _ _ _ _ _ _ _ _ _ Hrun).
Qed.

(** X2.  [probabilistic_variational_model] on a list shorter than [n_layers]
    raises [IndexError("list index out of range")], with the store as it
    was: no model object has been created. *)
Theorem probabilistic_variational_model_short_list
    i o (l : list Z) (kl : float) n loss w :
  len l < n ->
  probabilistic_variational_model i o (PyList l) kl n loss w
  = (Raise (IndexError "list index out of range"), w).
Proof.
  intros Hlen. unfold len in Hlen.
  assert (Hbad : getitem (PyList l) (Z.of_nat (length l))
                 = Raise (IndexError "list index out of range"))
    by (cbn; now rewrite list_getitem_beyond).
  pose proof (elem_of_range_2 (length l) n ltac:(lia)) as Hin.
  destruct (probabilistic_variational_model i o (PyList l) kl n loss w)
    as [[m|e] w'] eqn:Hrun.
  - destruct (probabilistic_returned_subscripts _ _ _ _ _ _ _ _ _ Hrun _ Hin)
      as [u Hu].
    congruence.
  - apply probabilistic_raised in Hrun
      as [(-> & j & Hj & Hget) | (vl & ls & t & Hall & _)].
    + now destruct (subscript_raised _ _ _ _ Hj Hget) as (_ & -> & _).
    + destruct (Forall2_range_elem _ _ _ _ Hall Hin) as (L & u & Hu & _).
      congruence.
Qed.


(** X4.  The network [probabilistic_variational_model] returns: an input
    layer of shape [(input_shape,)], then [n_layers] variational ReLU
    layers carrying [kl_weight], then a linear variational layer of
    [params_size(output_shape)] units feeding a [MultivariateNormalTriL]
    of event size [output_shape] whose KL regulariser uses the prior over
    [(output_shape,)] with the same weight. *)
Theorem probabilistic_variational_model_architecture
    i o nh (kl : float) n loss w m w' :
  probabilistic_variational_model i o nh kl n loss w = (Ok m, w') ->
  exists km hidden,
    kmodels w' !! m = Some km
    /\ model_name km = "model"
    /\ layers km
       = InputLayer [i] "input" :: hidden
         ++ [DenseVariational (params_size o) prior_trainable
               posterior_mean_field kl "linear" "dense_output";
             MultivariateNormalTriL o
               (KLDivergenceRegularizer (prior_regularize [o]) kl) "output"]
    /\ length hidden = Z.to_nat n
    /\ Forall (fun L => exists u name,
                 L = DenseVariational u prior_trainable posterior_mean_field
                       kl "relu" name) hidden.
Proof.
  intros (vl & ls & v & t & Hall & -> & -> & -> & _)%probabilistic_returned.
  eexists _, vl. cbn. rewrite lookup_insert_eq.
  split; [reflexivity|]. split; [reflexivity|]. split; [reflexivity|].
  split.
  - now rewrite <- (Forall2_length _ _ _ Hall), length_range.
  - clear -Hall. induction Hall as [|x L xs vl (u & _ & ->) _ IH];
      constructor; [now exists u, (dense_name x) | assumption].
Qed.

(** X5.  The layers of a model returned by [probabilistic_variational_model]
    are named [input], [dense1] .. [denseN], [dense_output], [output], and
    no two of these names coincide, whatever [n_layers] is. *)
Theorem probabilistic_variational_model_layer_names
    i o nh (kl : float) n loss w m w' :
  probabilistic_variational_model i o nh kl n loss w = (Ok m, w') ->
  exists km,
    kmodels w' !! m = Some km
    /\ layer_name <$> layers km
       = "input" :: (dense_name <$> range n) ++ ["dense_output"; "output"]
    /\ NoDup (layer_name <$> layers km).
Proof.
  intros (vl & ls & v & t & Hall & -> & -> & -> & _)%probabilistic_returned.
  eexists. cbn. rewrite lookup_insert_eq. split; [reflexivity|].
  cbn. rewrite fmap_app, (stack_names _ _ _ _ Hall). cbn.
  split; [reflexivity|].
  apply NoDup_model_names.
  - rewrite NoDup_cons, not_elem_of_cons.
    repeat split; [discriminate | apply not_elem_of_nil | apply NoDup_singleton].
  - rewrite !not_elem_of_cons.
    repeat split; [discriminate | discriminate | apply not_elem_of_nil].
  - intros j. destruct (dense_name_fresh j) as (_ & ? & ?).
    rewrite !not_elem_of_cons.
    repeat split; [assumption | assumption | apply not_elem_of_nil].
Qed.

(** X6.  [variational_model] returns a model only when [n_hidden] is a
    list of length [n_layers], or a scalar with [n_layers] a count the
    interpreter can repeat a list by: one that fits an index (from
    [-sys.maxsize - 1] to [sys.maxsize]) and is no more than the machine
    can allocate. *)
Theorem variational_model_returns_only_if
    i o nh (kl : float) n w m w' :
  variational_model i o nh kl n w = (Ok m, w') ->
  match nh with
  | PyInt _ => - maxsize - 1 <= n <= maxsize /\ n <= list_capacity
  | PyList l => len l = n
  end.
Proof.
  intros (l & v & t & Hl & _)%variational_returned.
  destruct nh as [h|l0].
  - now apply list_mul_returned in Hl as [_ ?].
  - now destruct Hl as [-> ?].
Qed.


(** X8.  The network [variational_model] returns: compiled with Adam and the
    mean squared error, an input layer of shape [(input_shape,)], then
    [n_layers] hidden layers whose widths are the entries of the list
    [n_hidden] in order (all of them), or [n_layers] copies of the scalar,
    then a linear [Dense] layer of [output_shape] units. *)
Theorem variational_model_architecture i o nh (kl : float) n w m w' :
  variational_model i o nh kl n w = (Ok m, w') ->
  exists km hidden,
    kmodels w' !! m = Some km
    /\ compiled km = Some (Adam, MeanSquaredError)
    /\ layers km
       = InputLayer [i] "input" :: hidden ++ [Dense o "linear" "output"]
    /\ length hidden = Z.to_nat n
    /\ hidden_units (layers km)
       = match nh with
         | PyList l => l
         | PyInt h => replicate (Z.to_nat n) h
         end.
Proof.
  intros (l & v & t & Hl & -> & -> & _)%variational_returned.
  pose proof (normalised_length nh n l Hl) as Hlen.
  eexists _, (hidden_stack kl l). cbn [kmodels]. rewrite lookup_insert_eq.
  split; [reflexivity|]. split; [reflexivity|]. split; [reflexivity|].
  split; [unfold hidden_stack; now rewrite length_imap|].
  cbn [layers]. rewrite hidden_units_variational.
  destruct nh as [h|l0].
  - now apply list_mul_returned in Hl as [-> _].
  - now destruct Hl as [-> _].
Qed.

(** X9.  The layers of a model returned by [variational_model] are named
    [input], [dense1] .. [denseN], [output], without a clash. *)
Theorem variational_model_layer_names i o nh (kl : float) n w m w' :
  variational_model i o nh kl n w = (Ok m, w') ->
  exists km,
    kmodels w' !! m = Some km
    /\ layer_name <$> layers km
       = "input" :: (dense_name <$> range n) ++ ["output"]
    /\ NoDup (layer_name <$> layers km).
Proof.
  intros (l & v & t & Hl & -> & -> & _)%variational_returned.
  pose proof (normalised_length nh n l Hl) as Hlen.
  eexists. cbn [kmodels]. rewrite lookup_insert_eq. split; [reflexivity|].
  cbn [layers]. unfold variational_network.
  rewrite fmap_cons, fmap_app, hidden_stack_names.
  replace (len l) with (Z.of_nat (Z.to_nat n)) by (unfold len; lia).
  assert (Hr : range (Z.of_nat (Z.to_nat n)) = range n)
    by (unfold range; now rewrite Nat2Z.id).
  rewrite Hr. cbn [layer_name fmap list_fmap].
  split; [reflexivity|].
  apply NoDup_model_names.
  - apply NoDup_singleton.
  - rewrite not_elem_of_cons.
    split; [discriminate | apply not_elem_of_nil].
  - intros j. destruct (dense_name_fresh j) as (_ & ? & _).
    rewrite not_elem_of_cons.
    split; [assumption | apply not_elem_of_nil].
Qed.

(** X10.  Each factory call creates a new model object: the reference it
    returns was not in use, every model that existed is left as it was,
    and no estimator is touched. *)
Theorem factories_allocate_fresh i o nh (kl : float) n loss w m w' :
  probabilistic_variational_model i o nh kl n loss w = (Ok m, w')
  \/ variational_model i o nh kl n w = (Ok m, w') ->
  kmodels w !! m = None
  /\ is_Some (kmodels w' !! m)
  /\ (forall m', m' <> m -> kmodels w' !! m' = kmodels w !! m')
  /\ estimators w' = estimators w.
Proof.
  intros [(vl & ls & v & t & _ & _ & -> & -> & _)%probabilistic_returned
         |(l & v & t & _ & -> & -> & _)%variational_returned]; cbn.
  all: split; [apply fresh_model_unused|].
  all: split; [rewrite lookup_insert_eq; eauto|].
  all: split; [|reflexivity].
  all: intros m' Hm'; now rewrite lookup_insert_ne.
Qed.

End Factory_properties.

(** ** The estimator: construction, delegation, isolation *)

Section Estimator_lemmas.
Context `{B : Backend} `{O : !BackendOps B}.
Local Open Scope py_scope.

(** A computation that writes no estimator attribute. *)
#[local] Abbreviation keeps_attributes c :=
  (forall w r w', c w = (r, w') -> estimators w' = estimators w).

Lemma keeps_ret {A} (a : A) : keeps_attributes (ret a).
Proof. unfold ret. now intros w r w' [= <- <-]. Qed.

Lemma keeps_raise {A} e : keeps_attributes (@raise _ A e).
Proof. unfold raise. now intros w r w' [= <- <-]. Qed.

Lemma keeps_bind {A C} (m : M A) (k : A -> M C) :
  keeps_attributes m -> (forall a, keeps_attributes (k a)) ->
  keeps_attributes (bind m k).
Proof.
  intros Hm Hk w r w'. unfold bind.
  destruct (m w) as [[a|e] w1] eqn:E.
  - intros Hrun. rewrite (Hk a _ _ _ Hrun). exact (Hm _ _ _ E).
  - intros [= <- <-]. exact (Hm _ _ _ E).
Qed.

Lemma keeps_deref self : keeps_attributes (deref self).
Proof.
  intros w r w'. unfold deref.
  destruct (estimators w !! self); now intros [= <- <-].
Qed.

Lemma keeps_get_model self : keeps_attributes (get_model self).
Proof.
  apply keeps_bind; [apply keeps_deref|].
  intros o. destruct (model o); [apply keeps_ret | apply keeps_raise].
Qed.

Lemma keeps_on_model {A} m
    (op : KModel -> tf_state -> result A * variables * tf_state) :
  keeps_attributes (on_model m op).
Proof.
  intros w r w'. unfold on_model.
  destruct (kmodels w !! m) as [km|]; [|now intros [= <- <-]].
  destruct (op km (tf w)) as [[r0 v] t]. now intros [= <- <-].
Qed.

Lemma keeps_on_tf {A} (op : tf_state -> result A * tf_state) :
  keeps_attributes (on_tf op).
Proof.
  intros w r w'. unfold on_tf.
  destruct (op (tf w)) as [r0 t]. now intros [= <- <-].
Qed.

Lemma keeps_fit self X y : keeps_attributes (fit self X y).
Proof.
  unfold fit. apply keeps_bind; [apply keeps_get_model|]. intros m.
  apply keeps_bind; [apply keeps_deref|]. intros o.
  apply keeps_bind; [apply keeps_on_model|]. intros _. apply keeps_ret.
Qed.

Lemma keeps_predict self X ns : keeps_attributes (predict self X ns).
Proof.
  unfold predict. apply keeps_bind; [apply keeps_get_model|]. intros m.
  apply keeps_bind; [apply keeps_on_model|]. intros d. apply keeps_on_tf.
Qed.

(** A model operation run on [m] leaves every other model as it was. *)
Lemma on_model_frame {A} m
    (op : KModel -> tf_state -> result A * variables * tf_state) w r w' m' :
  on_model m op w = (r, w') -> m' <> m -> kmodels w' !! m' = kmodels w !! m'.
Proof.
  unfold on_model. destruct (kmodels w !! m) as [km|]; [|now intros [= <- <-]].
  destruct (op km (tf w)) as [[r0 v] t]. intros [= <- <-] Hne. cbn.
  now rewrite lookup_insert_ne.
Qed.

(** What [PBNN(...)] has done when it returns. *)
Lemma PBNN_init_returned i o nh (kl : float) n ep bs vb w self w' :
  PBNN_init i o nh kl n ep bs vb w = (Ok self, w') ->
  exists m km t,
    probabilistic_variational_model i o nh kl n None
      (mkWorld (<[self := mkPBNN i o nh kl n ep bs vb None]> (estimators w))
               (kmodels w) (tf w))
    = (Ok m, mkWorld (<[self := mkPBNN i o nh kl n ep bs vb None]>
                        (estimators w))
                     (<[m := km]> (kmodels w)) t)
    /\ self = fresh (dom (estimators w))
    /\ m = fresh (dom (kmodels w))
    /\ compiled km = Some (Adam, neg_log_likelihood)
    /\ w' = mkWorld (<[self := mkPBNN i o nh kl n ep bs vb (Some m)]>
                       (estimators w))
                    (<[m := km]> (kmodels w)) t.
Proof.
  unfold PBNN_init. unfold bind at 1. unfold new_object at 1.
  unfold bind at 1.
  match goal with
  | |- context [probabilistic_variational_model _ _ _ _ _ _ ?w1] =>
      destruct (probabilistic_variational_model i o nh kl n None w1)
        as [[m|e] w2] eqn:Hrun; [|discriminate]
  end.
  pose proof Hrun as Hinv.
  apply probabilistic_returned in Hinv
    as (vl & ls & v & t & _ & _ & Hm & Hw2 & _).
  cbn [kmodels estimators tf] in Hm, Hw2.
  unfold bind, set_model, ret. rewrite Hw2. cbn [estimators kmodels tf].
  rewrite lookup_insert_eq. cbn. rewrite insert_insert_eq.
  intros [= <- <-]. rewrite Hw2 in Hrun.
  eexists m, _, _. split; [exact Hrun|].
  split; [reflexivity|]. split; [exact Hm|]. split; reflexivity.
Qed.

(** The same, read through lookups. *)
Lemma PBNN_init_lookups i o nh (kl : float) n ep bs vb w self w' :
  PBNN_init i o nh kl n ep bs vb w = (Ok self, w') ->
  exists m km,
    estimators w !! self = None
    /\ kmodels w !! m = None
    /\ compiled km = Some (Adam, neg_log_likelihood)
    /\ estimators w'
       = <[self := mkPBNN i o nh kl n ep bs vb (Some m)]> (estimators w)
    /\ kmodels w' = <[m := km]> (kmodels w).
Proof.
  intros (m & km & t & _ & -> & -> & Hc & ->)%PBNN_init_returned.
  exists (fresh (dom (kmodels w))), km.
  split; [apply fresh_estimator_unused|].
  split; [apply fresh_model_unused|].
  split; [exact Hc|]. split; reflexivity.
Qed.


End Estimator_lemmas.

Section Estimator_properties.
Context `{B : Backend} `{O : !BackendOps B}.
Local Open Scope py_scope.

(** X11.  A returning [PBNN(...)] yields a reference that was not in use, to an
    object holding the eight arguments as attributes and, as [model], a
    newly created network compiled with [neg_log_likelihood] (the
    constructor has no way to pass another loss); every other estimator
    and every other model is left as it was. *)
Theorem PBNN_init_builds i o nh (kl : float) n ep bs vb w self w' :
  PBNN_init i o nh kl n ep bs vb w = (Ok self, w') ->
  exists m km,
    estimators w !! self = None
    /\ kmodels w !! m = None
    /\ estimators w' !! self = Some (mkPBNN i o nh kl n ep bs vb (Some m))
    /\ kmodels w' !! m = Some km
    /\ compiled_loss km = Some neg_log_likelihood
    /\ (forall s, s <> self -> estimators w' !! s = estimators w !! s)
    /\ (forall m', m' <> m -> kmodels w' !! m' = kmodels w !! m').
Proof.
  intros (m & km & Hs & Hm & Hc & Hest & Hkm)%PBNN_init_lookups.
  exists m, km. rewrite Hest, Hkm.
  split; [exact Hs|]. split; [exact Hm|].
  split; [apply lookup_insert_eq|]. split; [apply lookup_insert_eq|].
  split; [unfold compiled_loss; now rewrite Hc|].
  split; intros x Hx; now rewrite lookup_insert_ne.
Qed.

(** X12.  [PBNN(...)] can be constructed only when the factory's
    subscripts go through: with [n_layers <= 0], or with a list
    [n_hidden] of at least [n_layers] entries.  A scalar [n_hidden] with
    [n_layers >= 1] (the default is 2) never yields an estimator. *)
Theorem PBNN_init_returns_only_if
    i o nh (kl : float) n ep bs vb w self w' :
  PBNN_init i o nh kl n ep bs vb w = (Ok self, w') ->
  n <= 0 \/ exists l, nh = PyList l /\ n <= len l.
Proof.
  intros (m & km & t & Hrun & _)%PBNN_init_returned.
  apply subscripts_ok.
  exact (probabilistic_returned_subscripts _ _ _ _ _ _ _ _ _ Hrun).
Qed.


(** X14.  None of [fit], [predict], [predict_std], [score], [transform],
    [fit_transform] writes an attribute of any estimator: whether the
    call returns or raises, the hyperparameters and the [model]
    reference of every estimator are what they were. *)
Theorem estimator_methods_keep_attributes self X y ns fit_params w :
  (forall r w', fit self X y w = (r, w') -> estimators w' = estimators w)
  /\ (forall r w', predict self X ns w = (r, w') ->
        estimators w' = estimators w)
  /\ (forall r w', predict_std self X w = (r, w') ->
        estimators w' = estimators w)
  /\ (forall r w', score self X y w = (r, w') ->
        estimators w' = estimators w)
  /\ (forall r w', transform self X w = (r, w') ->
        estimators w' = estimators w)
  /\ (forall r w', fit_transform self X y fit_params w = (r, w') ->
        estimators w' = estimators w).
Proof.
  repeat split; intros r w'.
  - apply keeps_fit.
  - apply keeps_predict.
  - unfold predict_std.
    apply keeps_bind; [apply keeps_get_model|]. intros m.
    apply keeps_bind; [apply keeps_on_model|]. intros d. apply keeps_on_tf.
  - unfold score.
    apply keeps_bind; [apply keeps_get_model|]. intros m.
    apply keeps_bind; [apply keeps_deref|]. intros o. apply keeps_on_model.
  - apply keeps_predict.
  - unfold fit_transform.
    apply keeps_bind; [apply keeps_fit|]. intros s. apply keeps_predict.
Qed.

(** X15.  An exception of the underlying [model.fit] comes out of [fit] as it
    is, and out of [fit_transform] as well, which then makes no
    prediction: the store is the one training left. *)
Theorem fit_passes_framework_error
    self X y fit_params w o m km e v t :
  estimators w !! self = Some o ->
  model o = Some m ->
  kmodels w !! m = Some km ->
  model_fit km X y (epochs o) (batch_size o) (verbose o) (tf w)
  = (Raise e, v, t) ->
  fit self X y w
  = (Raise e,
     mkWorld (estimators w)
             (<[m := mkKModel (layers km) (model_name km) (compiled km) v]>
                (kmodels w))
             t)
  /\ fit_transform self X y fit_params w
     = (Raise e,
        mkWorld (estimators w)
                (<[m := mkKModel (layers km) (model_name km) (compiled km) v]>
                   (kmodels w))
                t).
Proof.
  intros Hself Hmodel Hkm Hfit.
  assert (E : fit self X y w
              = (Raise e,
                 mkWorld (estimators w)
                   (<[m := mkKModel (layers km) (model_name km)
                             (compiled km) v]> (kmodels w))
                   t)).
  { unfold fit, bind, get_model, bind, deref, on_model, ret.
    now rewrite Hself, Hmodel, Hself, Hkm, Hfit. }
  split; [exact E|].
  unfold fit_transform. now apply bind_raise.
Qed.

(** X16.  [fit_transform] predicts with the model as training left it: once
    [model.fit] has returned variables [v], the forward pass runs on the
    model holding [v], and the result is 100 samples of the distribution
    it yields. *)
Theorem fit_transform_uses_trained_model
    self X y fit_params w o m km hst v t d v2 t2 s t3 :
  estimators w !! self = Some o ->
  model o = Some m ->
  kmodels w !! m = Some km ->
  model_fit km X y (epochs o) (batch_size o) (verbose o) (tf w)
  = (Ok hst, v, t) ->
  model_call (mkKModel (layers km) (model_name km) (compiled km) v) X t
  = (Ok d, v2, t2) ->
  dist_sample d 100 t2 = (Ok s, t3) ->
  fit_transform self X y fit_params w
  = (Ok s,
     mkWorld (estimators w)
             (<[m := mkKModel (layers km) (model_name km) (compiled km) v2]>
                (kmodels w))
             t3).
Proof.
  intros Hself Hmodel Hkm Hfit Hcall Hsample.
  unfold fit_transform.
  rewrite (bind_ok _ _ w self
             (mkWorld (estimators w)
                (<[m := mkKModel (layers km) (model_name km) (compiled km) v]>
                   (kmodels w)) t)).
  - unfold transform, predict, predict_n_samples,
      bind, get_model, bind, deref, on_model, on_tf, ret.
    cbn [estimators kmodels tf].
    rewrite Hself. cbn [model]. rewrite Hmodel. cbn [kmodels].
    rewrite lookup_insert_eq. cbn [layers model_name compiled tf].
    rewrite Hcall. cbn [tf]. rewrite Hsample. cbn [estimators kmodels tf].
    now rewrite insert_insert_eq.
  - unfold fit, bind, get_model, bind, deref, on_model, ret.
    now rewrite Hself, Hmodel, Hself, Hkm, Hfit.
Qed.

(** X17.  Two estimators built one after the other never share a model, so
    training the first leaves the second's network exactly as it was
    built: same layers, same compile settings, same variables. *)
Theorem estimators_do_not_share_models
    i1 o1 nh1 (kl1 : float) n1 ep1 bs1 vb1
    i2 o2 nh2 (kl2 : float) n2 ep2 bs2 vb2
    X y w s1 w1 s2 w2 r w3 :
  PBNN_init i1 o1 nh1 kl1 n1 ep1 bs1 vb1 w = (Ok s1, w1) ->
  PBNN_init i2 o2 nh2 kl2 n2 ep2 bs2 vb2 w1 = (Ok s2, w2) ->
  fit s1 X y w2 = (r, w3) ->
  s1 <> s2
  /\ exists m1 m2 km2,
       m1 <> m2
       /\ estimators w3 !! s1 = Some (mkPBNN i1 o1 nh1 kl1 n1 ep1 bs1 vb1 (Some m1))
       /\ estimators w3 !! s2 = Some (mkPBNN i2 o2 nh2 kl2 n2 ep2 bs2 vb2 (Some m2))
       /\ kmodels w2 !! m2 = Some km2
       /\ kmodels w3 !! m2 = Some km2.
Proof.
  intros H1 H2 Hfit.
  destruct (PBNN_init_lookups _ _ _ _ _ _ _ _ _ _ _ H1)
    as (m1 & km1 & _ & _ & _ & Hest1 & Hkm1).
  destruct (PBNN_init_lookups _ _ _ _ _ _ _ _ _ _ _ H2)
    as (m2 & km2 & Hs2 & Hm2 & _ & Hest2 & Hkm2).
  assert (Hs : s1 <> s2).
  { intros <-. rewrite Hest1, lookup_insert_eq in Hs2. discriminate Hs2. }
  assert (Hm : m1 <> m2).
  { intros <-. rewrite Hkm1, lookup_insert_eq in Hm2. discriminate Hm2. }
  assert (Hself : estimators w2 !! s1
                  = Some (mkPBNN i1 o1 nh1 kl1 n1 ep1 bs1 vb1 (Some m1))).
  { rewrite Hest2, lookup_insert_ne, Hest1 by congruence.
    apply lookup_insert_eq. }
  split; [exact Hs|]. exists m1, m2, km2.
  split; [exact Hm|].
  rewrite (keeps_fit _ _ _ _ _ _ Hfit).
  split; [exact Hself|].
  split; [rewrite Hest2; apply lookup_insert_eq|].
  split; [rewrite Hkm2; apply lookup_insert_eq|].
  (* [fit] on [s1] runs on [m1] only *)
  revert Hfit. unfold fit. unfold bind at 1. unfold get_model, bind at 1.
  unfold deref at 1. rewrite Hself. cbn [model]. unfold ret at 1.
  unfold bind at 1. unfold deref. rewrite Hself.
  unfold bind.
  destruct (on_model m1 _ w2) as [[hst|e] w4] eqn:Hon.
  - unfold ret. intros [= _ <-].
    rewrite (on_model_frame _ _ _ _ _ m2 Hon) by congruence.
    rewrite Hkm2. apply lookup_insert_eq.
  - intros [= _ <-].
    rewrite (on_model_frame _ _ _ _ _ m2 Hon) by congruence.
    rewrite Hkm2. apply lookup_insert_eq.
Qed.

(** X18.  Nothing checks that an estimator has been fitted: on an estimator
    straight out of [PBNN(...)], [predict] goes to the network as built
    and samples from whatever it yields, and any exception is the
    framework's. *)
Theorem predict_needs_no_fit i o nh (kl : float) n ep bs vb w self w1 X ns :
  PBNN_init i o nh kl n ep bs vb w = (Ok self, w1) ->
  exists m km,
    kmodels w1 !! m = Some km
    /\ compiled_loss km = Some neg_log_likelihood
    /\ fst (predict self X ns w1)
       = match model_call km X (tf w1) with
         | (Ok d, _, t) => fst (dist_sample d ns t)
         | (Raise e, _, _) => Raise e
         end.
Proof.
  intros (m & km & _ & _ & Hc & Hest & Hkms)%PBNN_init_lookups.
  assert (Hself : estimators w1 !! self
                  = Some (mkPBNN i o nh kl n ep bs vb (Some m)))
    by (rewrite Hest; apply lookup_insert_eq).
  assert (Hkm : kmodels w1 !! m = Some km)
    by (rewrite Hkms; apply lookup_insert_eq).
  exists m, km. split; [exact Hkm|].
  split; [unfold compiled_loss; now rewrite Hc|].
  unfold predict, bind, get_model, bind, deref, on_model, on_tf, ret.
  rewrite Hself. cbn [model]. rewrite Hkm.
  destruct (model_call km X (tf w1)) as [[[d|e] v] t]; [|reflexivity].
  cbn [tf]. now destruct (dist_sample d ns t).
Qed.

End Estimator_properties.

(** ** These properties on the concrete framework *)

Section More_runs.
#[local] Existing Instances Toy.backend Toy.ops.

Lemma probabilistic_variational_model_returns_only_if_run :
  2 <= 0 \/ exists l, PyList [8; 8] = PyList l /\ 2 <= len l.
Proof.
  apply (probabilistic_variational_model_returns_only_if
           (B := Toy.backend) 3 2 (PyList [8; 8]) 1 2 None Toy.empty_world
           1%positive
           (snd (probabilistic_variational_model (B := Toy.backend)
                   3 2 (PyList [8; 8]) 1 2 None Toy.empty_world))).
  vm_compute. reflexivity.
Defined.

Lemma probabilistic_variational_model_short_list_run :
  probabilistic_variational_model 3 2 (PyList [8]) 1 2 None Toy.empty_world
  = (Raise (IndexError "list index out of range"), Toy.empty_world).
Proof.
  apply (probabilistic_variational_model_short_list
           (B := Toy.backend) 3 2 [8] 1 2 None Toy.empty_world).
  unfold len; simpl; lia.
Defined.


Lemma probabilistic_variational_model_architecture_run :
  exists km hidden,
    kmodels (snd (probabilistic_variational_model
                    3 2 (PyList [8; 8]) 1 2 None Toy.empty_world))
      !! 1%positive = Some km
    /\ model_name km = "model"
    /\ layers km
       = InputLayer [3] "input" :: hidden
         ++ [DenseVariational (params_size 2) prior_trainable
               posterior_mean_field 1 "linear" "dense_output";
             MultivariateNormalTriL 2
               (KLDivergenceRegularizer (prior_regularize [2]) 1) "output"]
    /\ length hidden = Z.to_nat 2
    /\ Forall (fun L => exists u name,
                 L = DenseVariational u prior_trainable posterior_mean_field
                       1 "relu" name) hidden.
Proof.
  apply (probabilistic_variational_model_architecture
           (B := Toy.backend) 3 2 (PyList [8; 8]) 1 2 None Toy.empty_world).
  vm_compute. reflexivity.
Defined.

Lemma probabilistic_variational_model_layer_names_run :
  exists km,
    kmodels (snd (probabilistic_variational_model
                    3 2 (PyList [8; 8]) 1 2 None Toy.empty_world))
      !! 1%positive = Some km
    /\ layer_name <$> layers km
       = "input" :: (dense_name <$> range 2) ++ ["dense_output"; "output"]
    /\ NoDup (layer_name <$> layers km).
Proof.
  apply (probabilistic_variational_model_layer_names
           (B := Toy.backend) 3 2 (PyList [8; 8]) 1 2 None Toy.empty_world).
  vm_compute. reflexivity.
Defined.

Lemma variational_model_returns_only_if_run : len [8; 4] = 2.
Proof.
  apply (variational_model_returns_only_if
           (B := Toy.backend) 3 2 (PyList [8; 4]) 1 2 Toy.empty_world
           1%positive
           (snd (variational_model (B := Toy.backend)
                   3 2 (PyList [8; 4]) 1 2 Toy.empty_world))).
  vm_compute. reflexivity.
Defined.


Lemma variational_model_architecture_run :
  exists km hidden,
    kmodels (snd (variational_model 3 2 (PyList [8; 4]) 1 2 Toy.empty_world))
      !! 1%positive = Some km
    /\ compiled km = Some (Adam, MeanSquaredError)
    /\ layers km
       = InputLayer [3] "input" :: hidden ++ [Dense 2 "linear" "output"]
    /\ length hidden = Z.to_nat 2
    /\ hidden_units (layers km) = [8; 4].
Proof.
  apply (variational_model_architecture
           (B := Toy.backend) 3 2 (PyList [8; 4]) 1 2 Toy.empty_world).
  vm_compute. reflexivity.
Defined.

Lemma variational_model_layer_names_run :
  exists km,
    kmodels (snd (variational_model 3 2 (PyInt 8) 1 2 Toy.empty_world))
      !! 1%positive = Some km
    /\ layer_name <$> layers km
       = "input" :: (dense_name <$> range 2) ++ ["output"]
    /\ NoDup (layer_name <$> layers km).
Proof.
  apply (variational_model_layer_names
           (B := Toy.backend) 3 2 (PyInt 8) 1 2 Toy.empty_world).
  vm_compute. reflexivity.
Defined.

Lemma factories_allocate_fresh_run :
  kmodels Toy.fresh_estimator !! 2%positive = None
  /\ is_Some (kmodels (snd (variational_model 3 2 (PyInt 8) 1 2
                              Toy.fresh_estimator)) !! 2%positive)
  /\ (forall m', m' <> 2%positive ->
        kmodels (snd (variational_model 3 2 (PyInt 8) 1 2
                        Toy.fresh_estimator)) !! m'
        = kmodels Toy.fresh_estimator !! m')
  /\ estimators (snd (variational_model 3 2 (PyInt 8) 1 2
                        Toy.fresh_estimator))
     = estimators Toy.fresh_estimator.
Proof.
  apply (factories_allocate_fresh
           (B := Toy.backend) 3 2 (PyInt 8) 1 2 None Toy.fresh_estimator).
  right. vm_compute. reflexivity.
Defined.

Lemma PBNN_init_builds_run :
  exists m km,
    estimators Toy.fresh_estimator !! 2%positive = None
    /\ kmodels Toy.fresh_estimator !! m = None
    /\ estimators Toy.two_estimators !! 2%positive
       = Some (mkPBNN 4 1 (PyList [5]) 1 1 10 16 0 (Some m))
    /\ kmodels Toy.two_estimators !! m = Some km
    /\ compiled_loss km = Some neg_log_likelihood
    /\ (forall s, s <> 2%positive ->
          estimators Toy.two_estimators !! s
          = estimators Toy.fresh_estimator !! s)
    /\ (forall m', m' <> m ->
          kmodels Toy.two_estimators !! m'
          = kmodels Toy.fresh_estimator !! m').
Proof.
  apply (PBNN_init_builds
           (B := Toy.backend) 4 1 (PyList [5]) 1 1 10 16 0
           Toy.fresh_estimator).
  vm_compute. reflexivity.
Defined.

Lemma PBNN_init_returns_only_if_run :
  2 <= 0 \/ exists l, PyList [8; 8] = PyList l /\ 2 <= len l.
Proof.
  apply (PBNN_init_returns_only_if
           (B := Toy.backend) 3 2 (PyList [8; 8]) 1 2 100 32 0
           Toy.empty_world 1%positive Toy.fresh_estimator).
  vm_compute. reflexivity.
Defined.


Lemma estimator_methods_keep_attributes_run :
  estimators (snd (fit 1%positive 5 (Some 7) Toy.fresh_estimator))
  = estimators Toy.fresh_estimator.
Proof.
  apply (proj1 (estimator_methods_keep_attributes
                  (B := Toy.backend) 1%positive 5 (Some 7) 100 []
                  Toy.fresh_estimator)
           (fst (fit (B := Toy.backend) 1%positive 5 (Some 7)
                   Toy.fresh_estimator))).
  vm_compute. reflexivity.
Defined.

Lemma fit_passes_framework_error_run :
  exists w',
    fit (B := Toy.backend) (O := Toy.strict_ops) 1%positive 5 None Toy.fresh_estimator
    = (Raise (FrameworkError "no targets"), w')
    /\ fit_transform (B := Toy.backend) (O := Toy.strict_ops) 1%positive 5 None []
         Toy.fresh_estimator
       = (Raise (FrameworkError "no targets"), w').
Proof.
  eexists.
  eapply (fit_passes_framework_error
            (B := Toy.backend) (O := Toy.strict_ops)
            1%positive 5 None [] Toy.fresh_estimator);
    reflexivity.
Defined.

Lemma fit_transform_uses_trained_model_run :
  exists w',
    fit_transform 1%positive 5 (Some 7) [] Toy.fresh_estimator = (Ok 105, w').
Proof.
  eexists.
  eapply (fit_transform_uses_trained_model
            (B := Toy.backend) 1%positive 5 (Some 7) [] Toy.fresh_estimator);
    reflexivity.
Defined.

Lemma estimators_do_not_share_models_run :
  1%positive <> 2%positive
  /\ exists m1 m2 km2,
       m1 <> m2
       /\ estimators (snd (fit 1%positive 5 (Some 7) Toy.two_estimators))
            !! 1%positive
          = Some (mkPBNN 3 2 (PyList [8; 8]) 1 2 100 32 0 (Some m1))
       /\ estimators (snd (fit 1%positive 5 (Some 7) Toy.two_estimators))
            !! 2%positive
          = Some (mkPBNN 4 1 (PyList [5]) 1 1 10 16 0 (Some m2))
       /\ kmodels Toy.two_estimators !! m2 = Some km2
       /\ kmodels (snd (fit 1%positive 5 (Some 7) Toy.two_estimators)) !! m2
          = Some km2.
Proof.
  apply (estimators_do_not_share_models
           (B := Toy.backend)
           3 2 (PyList [8; 8]) 1 2 100 32 0
           4 1 (PyList [5]) 1 1 10 16 0
           5 (Some 7) Toy.empty_world
           1%positive Toy.fresh_estimator 2%positive Toy.two_estimators
           (fst (fit (B := Toy.backend) 1%positive 5 (Some 7)
                   Toy.two_estimators)));
    vm_compute; reflexivity.
Defined.

Lemma predict_needs_no_fit_run :
  exists m km,
    kmodels Toy.fresh_estimator !! m = Some km
    /\ compiled_loss km = Some neg_log_likelihood
    /\ fst (predict 1%positive 5 100 Toy.fresh_estimator)
       = match model_call km 5 (tf Toy.fresh_estimator) with
         | (Ok d, _, t) => fst (dist_sample d 100 t)
         | (Raise e, _, _) => Raise e
         end.
Proof.
  apply (predict_needs_no_fit
           (B := Toy.backend) 3 2 (PyList [8; 8]) 1 2 100 32 0
           Toy.empty_world).
  vm_compute. reflexivity.
Defined.

End More_runs.
